(** * DishComposer: the image compositing routine of [dishes/combine.py]
      and [dishes/create_dish.py]

    The two Python files define the same function [create_dish]: it opens a
    bowl image, a noodle image and up to three topping images with Pillow,
    resizes each one to a fixed fraction of a 1024x1024 canvas, pastes them
    in order with their own alpha band as mask, saves the canvas as a PNG
    and prints one line.

    The embedding keeps the shape of the Python code:
    - Python values: floats are the kernel's binary64 floats, [int(x)]
      truncates, [//] is floor division, exceptions are a sum type;
    - Pillow: an image is a mode, a size and a pixel function; [Image.open]
      reads the header and leaves the pixel data to the first use, so that
      either step can raise; [paste] with a mask follows Pillow's integer
      blend; the resampling kernel itself (LANCZOS) is a parameter of the
      development;
    - effects: the file system, write protection and the sequence of I/O
      operations are a [world], threaded by a state-and-exception monad. *)

From Corelib Require Import PrimFloat FloatOps SpecFloat.
From stdpp Require Import gmap strings list.

Set Warnings "-inexact-float".
Local Open Scope string_scope.
Local Open Scope list_scope.
Local Open Scope Z_scope.

(** ** Python values *)

(** The exceptions the routine can meet. *)
Inductive exn : Type :=
| FileNotFoundError (filename : string)
| UnidentifiedImageError (filename : string)
| PermissionError (filename : string)
| IsADirectoryError (filename : string)
| OSError (msg : string)
| ValueError (msg : string)
| OverflowError (msg : string)
| KeyError (key : string)
| IndexError (msg : string).

Module Py.

(** [float(n)] for an integer operand of a mixed [int * float] product:
    the nearest binary64 value. *)
Definition float_of_int (n : Z) : float :=
  SF2Prim (binary_normalize prec emax n 0 false).

(** [int(x)]: truncation towards zero; NaN and the infinities raise. *)
Definition int (x : float) : exn + Z :=
  match Prim2SF x with
  | S754_zero _ => inr 0
  | S754_finite s m e =>
      let a := if 0 <=? e then Z.pos m * 2 ^ e else Z.pos m / 2 ^ (- e) in
      inr (if s then - a else a)
  | S754_infinity _ => inl (OverflowError "cannot convert float infinity to integer")
  | S754_nan => inl (ValueError "cannot convert float NaN to integer")
  end.

(** [a // b] on integers rounds towards minus infinity, as [Z.div] does
    for a positive divisor. *)
Definition floordiv (a b : Z) : Z := a / b.

(** [d[k]] on a dict with string keys. *)
Definition getitem {V : Type} (d : gmap string V) (k : string) : exn + V :=
  match d !! k with
  | Some v => inr v
  | None => inl (KeyError k)
  end.

(** [l[i]] on a list, for an index that is not negative. *)
Definition list_getitem {V : Type} (l : list V) (i : nat) : exn + V :=
  match l !! i with
  | Some v => inr v
  | None => inl (IndexError "list index out of range")
  end.

(** [enumerate(l)]. *)
Fixpoint enumerate_from {A : Type} (i : nat) (l : list A) : list (nat * A) :=
  match l with
  | [] => []
  | x :: l' => (i, x) :: enumerate_from (S i) l'
  end.

Definition enumerate {A : Type} (l : list A) : list (nat * A) :=
  enumerate_from 0 l.

End Py.

(** ** Rasters *)

(** Pillow's pixel layouts that the routine can be handed. *)
Inductive mode : Type := L | RGB | RGBA.

(** A pixel is kept as four bands (r, g, b, a), each meant to range over
    0..255. Mode L uses the first band, mode RGB the first three. *)
Definition pixel : Type := Z * Z * Z * Z.

Definition band_r (p : pixel) : Z := p.1.1.1.
Definition band_g (p : pixel) : Z := p.1.1.2.
Definition band_b (p : pixel) : Z := p.1.2.
Definition band_a (p : pixel) : Z := p.2.

Definition valid_band (v : Z) : Prop := 0 <= v <= 255.

Definition valid_pixel (p : pixel) : Prop :=
  valid_band (band_r p) /\ valid_band (band_g p) /\
  valid_band (band_b p) /\ valid_band (band_a p).

Record image : Type := Image {
  im_mode : mode;
  im_size : Z * Z;
  im_getpixel : Z -> Z -> pixel
}.

(** What [Image.open] returns: Pillow reads the header at once and the
    pixel data at the first use, so the object holds either the raster or
    the exception that reading the data will raise. *)
Record image_file : Type := Opened { pixel_data : exn + image }.

Inductive Resampling : Type := NEAREST | BILINEAR | BICUBIC | LANCZOS.

(** The resampling kernel of the imaging backend: the pixel at (x, y) of
    the image obtained by resampling [im] to size [sz] with filter [f]. *)
Definition resampler : Type := Resampling -> image -> Z * Z -> Z -> Z -> pixel.

(** ** The world: files, write protection, I/O performed so far *)

Inductive format : Type := PNG | JPEG.

(** What a path can hold: an encoded raster; bytes no decoder accepts;
    something that cannot be opened for reading at all (a directory, a
    file without read permission), with the exception the attempt raises;
    or an image whose header is readable but whose pixel data is not (a
    truncated file), with the exception that reading the data raises. *)
Inductive file : Type :=
| ImageFile (fmt : format) (img : image)
| Blob (data : string)
| Unopenable (e : exn)
| Truncated (e : exn).

(** I/O operations, in the order they are attempted. *)
Inductive event : Type :=
| Read (path : string)
| Write (path : string)
| Print (line : string).

Record world : Type := World {
  files : gmap string file;
  protected : gset string;
  trace : list event
}.

Definition log (e : event) (w : world) : world :=
  {| files := files w; protected := protected w; trace := trace w ++ [e] |}.

Definition store (p : string) (f : file) (w : world) : world :=
  {| files := <[p := f]> (files w); protected := protected w; trace := trace w |}.

(** A computation that may raise and may change the world. *)
Definition IO (A : Type) : Type := world -> (exn + A) * world.

Definition ret {A : Type} (a : A) : IO A := fun w => (inr a, w).

Definition raise {A : Type} (e : exn) : IO A := fun w => (inl e, w).

Definition bind {A B : Type} (m : IO A) (k : A -> IO B) : IO B :=
  fun w =>
    match m w with
    | (inr a, w') => k a w'
    | (inl e, w') => (inl e, w')
    end.

(** A computation that only raises or returns. *)
Definition lift {A : Type} (r : exn + A) : IO A := fun w => (r, w).

Notation "'do' x <- m ;; k" := (bind m (fun x => k))
  (at level 10, x pattern, m at level 99, k at level 200).

(** [for x in l: body], the loop carrying the one object it mutates. *)
Fixpoint for_in {A S : Type} (l : list A) (body : A -> S -> IO S) (s : S) : IO S :=
  match l with
  | [] => ret s
  | x :: l' => do s' <- body x s ;; for_in l' body s'
  end.

(** [print(line)]: the line is written to the standard output, which is
    taken to accept every line (an output stream that cannot encode the
    line is outside this model). *)
Definition print (line : string) : IO unit :=
  fun w => (inr tt, log (Print line) w).

(** ** Pillow *)

Module Image.

(** [Image.new(mode, size, color)]. *)
Definition new (m : mode) (sz : Z * Z) (color : pixel) : image :=
  {| im_mode := m; im_size := sz; im_getpixel := fun _ _ => color |}.

(** The bands of a pixel of mode [src] seen in mode [dst]: L from colour
    by the ITU-R 601-2 luma transform, colour from L by replication, and
    a missing alpha band is opaque. *)
Definition convert_pixel (src dst : mode) (p : pixel) : pixel :=
  match src, dst with
  | L, L | RGB, RGB | RGBA, RGBA => p
  | L, (RGB | RGBA) => (band_r p, band_r p, band_r p, 255)
  | RGB, RGBA => (band_r p, band_g p, band_b p, 255)
  | RGBA, RGB => (band_r p, band_g p, band_b p, 255)
  | (RGB | RGBA), L =>
      let l := (band_r p * 19595 + band_g p * 38470 + band_b p * 7471 + 32768) ≫ 16 in
      (l, l, l, 255)
  end.

(** [im.convert(mode)]. *)
Definition convert (im : image) (m : mode) : image :=
  {| im_mode := m; im_size := im_size im;
     im_getpixel := fun x y => convert_pixel (im_mode im) m (im_getpixel im x y) |}.

Section Resize.
Variable resample : resampler.

(** [im.resize(size, filter)]: a new image of exactly the size asked
    for; a side that is not positive is refused. Sides too large for the
    backend to allocate are outside this model. *)
Definition resize (im : image) (sz : Z * Z) (f : Resampling) : exn + image :=
  if (sz.1 <=? 0) || (sz.2 <=? 0)
  then inl (ValueError "height and width must be > 0")
  else inr {| im_mode := im_mode im; im_size := sz;
              im_getpixel := resample f im sz |}.
End Resize.

(** Pillow's rounding division by 255 and its blend of two bands. *)
Definition DIV255 (a : Z) : Z :=
  let tmp := a + 128 in ((tmp ≫ 8) + tmp) ≫ 8.

Definition BLEND (mask in1 in2 : Z) : Z :=
  DIV255 (in1 * (255 - mask) + in2 * mask).

Definition blend_pixel (mask : Z) (out inp : pixel) : pixel :=
  (BLEND mask (band_r out) (band_r inp),
   BLEND mask (band_g out) (band_g inp),
   BLEND mask (band_b out) (band_b inp),
   BLEND mask (band_a out) (band_a inp)).

(** Whether canvas pixel (x, y) lies under an image of size [sz] whose
    top-left corner is at [box]. *)
Definition covers (box sz : Z * Z) (x y : Z) : bool :=
  (box.1 <=? x) && (x <? box.1 + sz.1) &&
  (box.2 <=? y) && (y <? box.2 + sz.2).

(** [dst.paste(src, box, mask)] with an RGBA mask: under the pasted
    rectangle every band of the destination is blended with the band of
    the source, weighted by the alpha band of the mask; elsewhere the
    destination is kept. The destination keeps its size and mode. Python
    mutates [dst] in place; here the new raster is returned. *)
Definition paste (dst src : image) (box : Z * Z) (mask : image) : exn + image :=
  if bool_decide (im_size mask = im_size src) then
    inr {| im_mode := im_mode dst; im_size := im_size dst;
           im_getpixel := fun x y =>
             if covers box (im_size src) x y then
               blend_pixel (band_a (im_getpixel mask (x - box.1) (y - box.2)))
                           (im_getpixel dst x y)
                           (im_getpixel (convert src (im_mode dst)) (x - box.1) (y - box.2))
             else im_getpixel dst x y |}
  else inl (ValueError "images do not match").

(** [Image.open(path)]: a missing path raises FileNotFoundError, a file
    no decoder accepts raises UnidentifiedImageError, a path that cannot be
    opened for reading raises what the operating system reports; a
    truncated image is opened like a sound one. *)
Definition open (path : string) : IO image_file :=
  fun w =>
    let w' := log (Read path) w in
    match files w !! path with
    | None => (inl (FileNotFoundError path), w')
    | Some (Blob _) => (inl (UnidentifiedImageError path), w')
    | Some (Unopenable e) => (inl e, w')
    | Some (Truncated e) => (inr (Opened (inl e)), w')
    | Some (ImageFile _ img) => (inr (Opened (inr img)), w')
    end.

(** [im.load()] on an opened file: the pixel data is read now. *)
Definition load (f : image_file) : exn + image := pixel_data f.

(** [im.convert(mode)] on an opened file: it loads the data first. *)
Definition convert_file (f : image_file) (m : mode) : exn + image :=
  match load f with
  | inl e => inl e
  | inr im => inr (convert im m)
  end.

(** [im.save(path, format)]: a write-protected path raises
    PermissionError and nothing is written. The other ways a write can
    fail (a missing directory, a full disk) are outside this model: a path
    that is not protected is taken to be writable. *)
Definition save (im : image) (path : string) (fmt : format) : IO unit :=
  fun w =>
    let w' := log (Write path) w in
    if bool_decide (path ∈ protected w) then (inl (PermissionError path), w')
    else (inr tt, store path (ImageFile fmt im) w').

End Image.

(** ** dishes/combine.py *)

Module Combine.
Section WithBackend.
Variable resample : resampler.

(** The constants that [create_dish] binds before its first statement
    that can fail. *)
Definition canvas_size : Z * Z := (1024, 1024).

Definition sizes : gmap string float :=
  list_to_map [("bowl", 0.80%float); ("noodle", 0.60%float); ("topping", 0.40%float)].

Definition offsets : list (Z * Z) := [(0, -30); (-40, 25); (40, 25)].

(** The nested function [resize_and_center(img, scale)]. *)
Definition resize_and_center (img : image) (scale : float) : IO (image * (Z * Z)) :=
  do new_size <- lift (Py.int (Py.float_of_int canvas_size.1 * scale)%float) ;;
  do img_resized <- lift (Image.resize resample img (new_size, new_size) LANCZOS) ;;
  let x := Py.floordiv (canvas_size.1 - new_size) 2 in
  let y := Py.floordiv (canvas_size.2 - new_size) 2 in
  ret (img_resized, (x, y)).

(** The body of the loop over [enumerate(topping_paths[:3])]. *)
Definition topping_body (it : nat * string) (final_image : image) : IO image :=
  let '(i, topping_path) := it in
  do topping <- Image.open topping_path ;;
  do topping <- lift (Image.convert_file topping RGBA) ;;
  do scale <- lift (Py.getitem sizes "topping") ;;
  do (topping_resized, base_pos) <- resize_and_center topping scale ;;
  do (offset_x, offset_y) <-
     (if (i <? length offsets)%nat then lift (Py.list_getitem offsets i)
      else ret (0, 0)) ;;
  let topping_pos := (base_pos.1 + offset_x, base_pos.2 + offset_y) in
  lift (Image.paste final_image topping_resized topping_pos topping_resized).

Definition create_dish (bowl_path noodle_path : string)
    (topping_paths : list string) (output_path : string) : IO string :=
  let final_image := Image.new RGBA canvas_size (255, 255, 255, 0) in
  (* Layer 1: bowl with broth *)
  do bowl <- Image.open bowl_path ;;
  do bowl <- lift (Image.convert_file bowl RGBA) ;;
  do scale <- lift (Py.getitem sizes "bowl") ;;
  do (bowl_resized, bowl_pos) <- resize_and_center bowl scale ;;
  do final_image <- lift (Image.paste final_image bowl_resized bowl_pos bowl_resized) ;;
  (* Layer 2: noodles *)
  do noodles <- Image.open noodle_path ;;
  do noodles <- lift (Image.convert_file noodles RGBA) ;;
  do scale <- lift (Py.getitem sizes "noodle") ;;
  do (noodles_resized, noodles_pos) <- resize_and_center noodles scale ;;
  do final_image <- lift (Image.paste final_image noodles_resized noodles_pos noodles_resized) ;;
  (* Layer 3+: toppings *)
  do final_image <- for_in (Py.enumerate (take 3 topping_paths)) topping_body final_image ;;
  (* Save final image *)
  do _ <- Image.save final_image output_path PNG ;;
  do _ <- print ("✅ Dish created successfully: " +:+ output_path) ;;
  ret output_path.

(** The script block under [if __name__ == "__main__"]. *)
Definition example_usage : IO string :=
  let bowl := "images/broth.png" in
  let noodles := "images/noodle.png" in
  let toppings := ["images/topping3.png"] in
  create_dish bowl noodles toppings "images/my_fusion_dish.png".

End WithBackend.
End Combine.

(** ** dishes/create_dish.py *)

(** The command-line file repeats the routine word for word before its
    argument parsing; it is embedded from its own text. *)
Module CreateDish.
Section WithBackend.
Variable resample : resampler.

Definition canvas_size : Z * Z := (1024, 1024).

Definition sizes : gmap string float :=
  list_to_map [("bowl", 0.80%float); ("noodle", 0.60%float); ("topping", 0.40%float)].

Definition offsets : list (Z * Z) := [(0, -30); (-40, 25); (40, 25)].

Definition resize_and_center (img : image) (scale : float) : IO (image * (Z * Z)) :=
  do new_size <- lift (Py.int (Py.float_of_int canvas_size.1 * scale)%float) ;;
  do img_resized <- lift (Image.resize resample img (new_size, new_size) LANCZOS) ;;
  let x := Py.floordiv (canvas_size.1 - new_size) 2 in
  let y := Py.floordiv (canvas_size.2 - new_size) 2 in
  ret (img_resized, (x, y)).

Definition topping_body (it : nat * string) (final_image : image) : IO image :=
  let '(i, topping_path) := it in
  do topping <- Image.open topping_path ;;
  do topping <- lift (Image.convert_file topping RGBA) ;;
  do scale <- lift (Py.getitem sizes "topping") ;;
  do (topping_resized, base_pos) <- resize_and_center topping scale ;;
  do (offset_x, offset_y) <-
     (if (i <? length offsets)%nat then lift (Py.list_getitem offsets i)
      else ret (0, 0)) ;;
  let topping_pos := (base_pos.1 + offset_x, base_pos.2 + offset_y) in
  lift (Image.paste final_image topping_resized topping_pos topping_resized).

Definition create_dish (bowl_path noodle_path : string)
    (topping_paths : list string) (output_path : string) : IO string :=
  let final_image := Image.new RGBA canvas_size (255, 255, 255, 0) in
  do bowl <- Image.open bowl_path ;;
  do bowl <- lift (Image.convert_file bowl RGBA) ;;
  do scale <- lift (Py.getitem sizes "bowl") ;;
  do (bowl_resized, bowl_pos) <- resize_and_center bowl scale ;;
  do final_image <- lift (Image.paste final_image bowl_resized bowl_pos bowl_resized) ;;
  do noodles <- Image.open noodle_path ;;
  do noodles <- lift (Image.convert_file noodles RGBA) ;;
  do scale <- lift (Py.getitem sizes "noodle") ;;
  do (noodles_resized, noodles_pos) <- resize_and_center noodles scale ;;
  do final_image <- lift (Image.paste final_image noodles_resized noodles_pos noodles_resized) ;;
  do final_image <- for_in (Py.enumerate (take 3 topping_paths)) topping_body final_image ;;
  do _ <- Image.save final_image output_path PNG ;;
  do _ <- print ("✅ Dish created successfully: " +:+ output_path) ;;
  ret output_path.

(** The value of [parser.parse_args()]: the positional [bowl] and
    [noodles], the one or more [toppings], and [--output] or its default. *)
Record Namespace : Type := {
  bowl : string;
  noodles : string;
  toppings : list string;
  output : string
}.

(** What may leave [main]: an exception, or the SystemExit that
    [sys.exit(code)] raises. *)
Inductive BaseException : Type :=
| Exception (e : exn)
| SystemExit (code : Z).

(** [str(e)], the message of an exception as an f-string formats it. *)
Variable str : exn -> string.

(** [main()] once the arguments are parsed: the cap on the toppings, then
    the call under [try], with the two [except] clauses in their order. *)
Definition main (args : Namespace) : world -> (BaseException + unit) * world :=
  fun w =>
    (* Validate number of toppings *)
    let '(args, w) :=
      if (3 <? length (toppings args))%nat then
        ({| bowl := bowl args; noodles := noodles args;
            toppings := take 3 (toppings args); output := output args |},
         (print "⚠️  Warning: Maximum 3 toppings supported. Using first 3 only." w).2)
      else (args, w) in
    match create_dish (bowl args) (noodles args) (toppings args) (output args) w with
    | (inr _, w) => (inr tt, w)
    | (inl (FileNotFoundError _ as e), w) =>
        let w := (print ("❌ Error: Could not find file - " +:+ str e) w).2 in
        (inl (SystemExit 1), w)
    | (inl e, w) =>
        let w := (print ("❌ Error: " +:+ str e) w).2 in
        (inl (SystemExit 1), w)
    end.

End WithBackend.
End CreateDish.

(** ** Vocabulary of the statements *)

(** What opening a path and loading its pixel data gives: the raster, or
    the exception raised by [Image.open] or by the load. *)
Definition load (w : world) (path : string) : exn + image :=
  match files w !! path with
  | None => inl (FileNotFoundError path)
  | Some (Blob _) => inl (UnidentifiedImageError path)
  | Some (Unopenable e) => inl e
  | Some (Truncated e) => inl e
  | Some (ImageFile _ img) => inr img
  end.

(** The expression [Image.open(path).convert('RGBA')] of lines 38, 43 and
    55. *)
Definition open_rgba (path : string) : IO image :=
  do f <- Image.open path ;; lift (Image.convert_file f RGBA).

(** The path holds a raster that decodes to [img]. *)
Definition holds (w : world) (path : string) (img : image) : Prop :=
  exists fmt, files w !! path = Some (ImageFile fmt img).

(** The input paths that a call opens, in the order it opens them. *)
Definition inputs (bowl_path noodle_path : string) (topping_paths : list string) : list string :=
  bowl_path :: noodle_path :: take 3 topping_paths.

(** The I/O operations performed between two worlds. *)
Definition events_since (w w' : world) : list event :=
  drop (length (trace w)) (trace w').

(** The empty canvas. *)
Definition canvas : image := Image.new RGBA (1024, 1024) (255, 255, 255, 0).

(** A centred top-left corner for a square of side [S]. *)
Definition centered (S : Z) : Z * Z := ((1024 - S) `div` 2, (1024 - S) `div` 2).

(** The raster that [paste] leaves when the mask is the pasted image. *)
Definition pasted (dst src : image) (box : Z * Z) : image :=
  {| im_mode := im_mode dst; im_size := im_size dst;
     im_getpixel := fun x y =>
       if Image.covers box (im_size src) x y then
         Image.blend_pixel (band_a (im_getpixel src (x - box.1) (y - box.2)))
                           (im_getpixel dst x y)
                           (im_getpixel (Image.convert src (im_mode dst)) (x - box.1) (y - box.2))
       else im_getpixel dst x y |}.

(** A layer: a raster with the corner it is pasted at. *)
Definition place (c : image) (l : image * (Z * Z)) : image := pasted c l.1 l.2.

(** The corner of the [i]-th topping: centred, then moved by the [i]-th
    entry of the offset table. *)
Definition topping_pos (i : nat) : Z * Z :=
  match Combine.offsets !! i with
  | Some (dx, dy) => ((centered 409).1 + dx, (centered 409).2 + dy)
  | None => centered 409
  end.

Section Layers.
Variable resample : resampler.

(** An opened file converted to RGBA and resized to a square of side [S]. *)
Definition layer (raw : image) (S : Z) : image :=
  {| im_mode := RGBA; im_size := (S, S);
     im_getpixel := resample LANCZOS (Image.convert raw RGBA) (S, S) |}.

Definition topping_layer (i : nat) (raw : image) : image * (Z * Z) :=
  (layer raw 409, topping_pos i).

(** The layers of a dish, bottom first. *)
Definition layers (bowl noodle : image) (toppings : list image) : list (image * (Z * Z)) :=
  (layer bowl 819, (102, 102)) :: (layer noodle 614, (205, 205)) ::
  imap topping_layer toppings.

Definition composite (bowl noodle : image) (toppings : list image) : image :=
  foldl place canvas (layers bowl noodle toppings).
End Layers.

Section Outcome.
Variable resample : resampler.
Variable ld : string -> exn + image.

(** The loop: the raster it leaves or the exception that ends it, and
    the paths it tried to open. *)
Fixpoint toppings_outcome (its : list (nat * string)) (c : image)
    : (exn + image) * list string :=
  match its with
  | [] => (inr c, [])
  | (i, p) :: its' =>
      match ld p with
      | inl e => (inl e, [p])
      | inr raw =>
          let r := toppings_outcome its' (place c (topping_layer resample i raw)) in
          (r.1, p :: r.2)
      end
  end.

(** The whole call: its result, the I/O it attempts and the raster it
    stores at the output path, given whether that path is protected. *)
Definition dish_outcome (locked : bool) (bowl_path noodle_path : string)
    (topping_paths : list string) (output_path : string)
    : (exn + string) * list event * option image :=
  match ld bowl_path with
  | inl e => (inl e, [Read bowl_path], None)
  | inr bowl =>
      match ld noodle_path with
      | inl e => (inl e, [Read bowl_path; Read noodle_path], None)
      | inr noodles =>
          let c := place (place canvas (layer resample bowl 819, (102, 102)))
                         (layer resample noodles 614, (205, 205)) in
          let r := toppings_outcome (Py.enumerate (take 3 topping_paths)) c in
          let evs := Read bowl_path :: Read noodle_path :: (Read <$> r.2) in
          match r.1 with
          | inl e => (inl e, evs, None)
          | inr final_image =>
              if locked
              then (inl (PermissionError output_path), evs ++ [Write output_path], None)
              else (inr output_path,
                    evs ++ [Write output_path;
                            Print ("✅ Dish created successfully: " +:+ output_path)],
                    Some final_image)
          end
      end
  end.

End Outcome.

(** The world that an outcome leaves. *)
Definition after (w : world) (output_path : string) (evs : list event)
    (saved : option image) : world :=
  {| files := match saved with
              | Some img => <[output_path := ImageFile PNG img]> (files w)
              | None => files w
              end;
     protected := protected w;
     trace := trace w ++ evs |}.

(** A band of the destination blended with a band of the source in
    proportion to the source's alpha, rounded to the nearest integer. *)
Definition mix (a old new : Z) : Z := (old * (255 - a) + new * a + 127) `div` 255.

(** [Image.open(path).convert('RGBA')] raises at this path. *)
Definition cannot_be_opened (w : world) (path : string) : Prop :=
  exists e, (open_rgba path w).1 = inl e.

(** ** Properties named in the statements *)

(** The side that [resize_and_center] gives the layer stored under [key]
    in [sizes]: [int(canvas_size[0] * scale)] evaluates to [S] and the
    resized image is [S] by [S], whatever image is resized. *)
Definition resized_side (key : string) (S : Z) : Prop :=
  forall (resample : resampler) (img : image) (w : world),
  exists scale r pos,
    Py.getitem Combine.sizes key = inr scale /\
    Py.int (Py.float_of_int Combine.canvas_size.1 * scale)%float = inr S /\
    Combine.resize_and_center resample img scale w = (inr (r, pos), w) /\
    im_size r = (S, S).

(** The corner that [resize_and_center] returns for the layer stored under
    [key] in [sizes]. *)
Definition centered_at (key : string) (pos : Z * Z) : Prop :=
  forall (resample : resampler) (img : image) (w : world),
  exists scale r,
    Py.getitem Combine.sizes key = inr scale /\
    Combine.resize_and_center resample img scale w = (inr (r, pos), w).

(** The corner at which iteration [i] of the topping loop pastes. *)
Definition topping_pasted_at (i : nat) (pos : Z * Z) : Prop :=
  forall (resample : resampler) (w : world) (p : string) (raw c : image),
    holds w p raw ->
    Combine.topping_body resample (i, p) c w =
      (inr (pasted c (layer resample raw 409) pos), log (Read p) w).

(** The reading of the error contract that names one exception: when some
    input path cannot be opened, the call raises FileNotFoundError and the
    files are as before. *)
Definition missing_file_claim (resample : resampler) (w : world)
    (bowl_path noodle_path : string) (topping_paths : list string)
    (output_path : string) : Prop :=
  (exists p, p ∈ inputs bowl_path noodle_path topping_paths /\ cannot_be_opened w p) ->
  exists q w',
    Combine.create_dish resample bowl_path noodle_path topping_paths output_path w =
      (inl (FileNotFoundError q), w') /\
    files w' = files w.

(** The reading of the side-effect contract that allows nothing but file
    I/O: every operation is the reading of an input path or the writing of
    the output path, the latter exactly once. *)
Definition reads_and_one_write (ins : list string) (out : string)
    (evs : list event) : Prop :=
  Forall (fun ev => (exists p, ev = Read p /\ p ∈ ins) \/ ev = Write out) evs /\
  exists before after_, evs = before ++ Write out :: after_ /\
                        (Write out ∉ before) /\ (Write out ∉ after_).

(** Every input path of a call holds a decodable raster. *)
Definition valid_inputs (w : world) (bowl_path noodle_path : string)
    (topping_paths : list string) : Prop :=
  Forall (fun p => exists img, holds w p img)
         (inputs bowl_path noodle_path topping_paths).

(** The square of side [S] with top-left corner [box] lies in the square
    from [lo] (included) to [hi] (excluded) on both axes. *)
Definition within (box : Z * Z) (S lo hi : Z) : Prop :=
  lo <= box.1 /\ box.1 + S <= hi /\ lo <= box.2 /\ box.2 + S <= hi.

(** Every pixel of the raster, inside or outside its size, has bands in
    0..255. *)
Definition valid_image (im : image) : Prop :=
  forall x y, valid_pixel (im_getpixel im x y).

(** The two lines of [main]: the warning about the cap, and the line that
    its [except] clauses print for an exception, the first clause taking
    FileNotFoundError and the second every other exception. *)
Definition warning_line : string :=
  "⚠️  Warning: Maximum 3 toppings supported. Using first 3 only.".

Definition error_line (str : exn -> string) (e : exn) : string :=
  match e with
  | FileNotFoundError _ => "❌ Error: Could not find file - " +:+ str e
  | _ => "❌ Error: " +:+ str e
  end.

(** The routine with line 59 cut down to [offset_x, offset_y = offsets[i]]:
    the loop body without the test [i < len(offsets)] and without the (0, 0)
    fallback, so that an index outside the table raises IndexError, and
    [create_dish] with that body in its loop. Only that line differs. *)
Definition topping_body_no_fallback (resample : resampler)
    (it : nat * string) (final_image : image) : IO image :=
  let '(i, topping_path) := it in
  do topping <- Image.open topping_path ;;
  do topping <- lift (Image.convert_file topping RGBA) ;;
  do scale <- lift (Py.getitem Combine.sizes "topping") ;;
  do (topping_resized, base_pos) <- Combine.resize_and_center resample topping scale ;;
  do (offset_x, offset_y) <- lift (Py.list_getitem Combine.offsets i) ;;
  let topping_pos := (base_pos.1 + offset_x, base_pos.2 + offset_y) in
  lift (Image.paste final_image topping_resized topping_pos topping_resized).

Definition create_dish_no_fallback (resample : resampler)
    (bowl_path noodle_path : string)
    (topping_paths : list string) (output_path : string) : IO string :=
  let final_image := Image.new RGBA Combine.canvas_size (255, 255, 255, 0) in
  do bowl <- Image.open bowl_path ;;
  do bowl <- lift (Image.convert_file bowl RGBA) ;;
  do scale <- lift (Py.getitem Combine.sizes "bowl") ;;
  do (bowl_resized, bowl_pos) <- Combine.resize_and_center resample bowl scale ;;
  do final_image <- lift (Image.paste final_image bowl_resized bowl_pos bowl_resized) ;;
  do noodles <- Image.open noodle_path ;;
  do noodles <- lift (Image.convert_file noodles RGBA) ;;
  do scale <- lift (Py.getitem Combine.sizes "noodle") ;;
  do (noodles_resized, noodles_pos) <- Combine.resize_and_center resample noodles scale ;;
  do final_image <- lift (Image.paste final_image noodles_resized noodles_pos noodles_resized) ;;
  do final_image <- for_in (Py.enumerate (take 3 topping_paths))
                      (topping_body_no_fallback resample) final_image ;;
  do _ <- Image.save final_image output_path PNG ;;
  do _ <- print ("✅ Dish created successfully: " +:+ output_path) ;;
  ret output_path.

(** ** Sample data *)

(** Nearest-neighbour sampling, a resampler to run the routine with. *)
Definition nearest : resampler :=
  fun _ im sz x y =>
    im_getpixel im (x * (im_size im).1 `div` sz.1) (y * (im_size im).2 `div` sz.2).

Definition broth : image := Image.new RGB (600, 400) (200, 120, 40, 255).
Definition ramen : image := Image.new RGBA (512, 512) (240, 220, 150, 128).
Definition egg : image := Image.new RGBA (64, 64) (250, 250, 240, 255).
Definition basil : image := Image.new L (32, 48) (90, 90, 90, 255).

Definition pantry : world :=
  {| files := list_to_map
       [("images/broth.png", ImageFile PNG broth);
        ("images/noodle.png", ImageFile PNG ramen);
        ("images/egg.png", ImageFile PNG egg);
        ("images/basil.jpg", ImageFile JPEG basil);
        ("images/notes.txt", Blob "two eggs, one bunch of basil")];
     protected := {["images/broth.png"]};
     trace := [] |}.

(** A larder whose files are not all sound: a bowl image cut short, and a
    directory where the noodles should be. *)
Definition larder : world :=
  {| files := list_to_map
       [("images/broth.png", Truncated (OSError "image file is truncated"));
        ("images/noodle", Unopenable (IsADirectoryError "images/noodle"));
        ("images/egg.png", ImageFile PNG egg)];
     protected := ∅;
     trace := [] |}.

(** A second pantry: the same input files, other files around them and
    another history. *)
Definition other_pantry : world :=
  {| files := list_to_map
       [("images/noodle.png", ImageFile PNG ramen);
        ("images/broth.png", ImageFile PNG broth);
        ("images/egg.png", ImageFile PNG egg);
        ("final_dish.png", Blob "left over")];
     protected := ∅;
     trace := [Print "hello"] |}.

(** A stand-in for [str(e)], to run [main] with; its texts are not meant
    to be Python's. *)
Definition sample_str (e : exn) : string :=
  match e with
  | FileNotFoundError f => "No such file or directory: " +:+ f
  | UnidentifiedImageError f => "cannot identify image file " +:+ f
  | PermissionError f => "Permission denied: " +:+ f
  | IsADirectoryError f => "Is a directory: " +:+ f
  | OSError m | ValueError m | OverflowError m | IndexError m => m
  | KeyError k => k
  end.

(** Command lines, parsed: five toppings of which the fourth does not
    exist, and a bowl that does not exist. *)
Definition greedy_args : CreateDish.Namespace :=
  {| CreateDish.bowl := "images/broth.png";
     CreateDish.noodles := "images/noodle.png";
     CreateDish.toppings :=
       ["images/egg.png"; "images/basil.jpg"; "images/egg.png";
        "images/missing.png"; "images/egg.png"];
     CreateDish.output := "final_dish.png" |}.

Definition hungry_args : CreateDish.Namespace :=
  {| CreateDish.bowl := "images/missing.png";
     CreateDish.noodles := "images/noodle.png";
     CreateDish.toppings := ["images/egg.png"];
     CreateDish.output := "final_dish.png" |}.

(** ** Arithmetic of the three scales *)

Lemma int_scale_bowl :
  Py.int (Py.float_of_int 1024 * 0.80)%float = inr 819.
Proof. vm_compute. reflexivity. Qed.

Lemma int_scale_noodle :
  Py.int (Py.float_of_int 1024 * 0.60)%float = inr 614.
Proof. vm_compute. reflexivity. Qed.

Lemma int_scale_topping :
  Py.int (Py.float_of_int 1024 * 0.40)%float = inr 409.
Proof. vm_compute. reflexivity. Qed.

Lemma sizes_bowl : Py.getitem Combine.sizes "bowl" = inr 0.80%float.
Proof. vm_compute. reflexivity. Qed.

Lemma sizes_noodle : Py.getitem Combine.sizes "noodle" = inr 0.60%float.
Proof. vm_compute. reflexivity. Qed.

Lemma sizes_topping : Py.getitem Combine.sizes "topping" = inr 0.40%float.
Proof. vm_compute. reflexivity. Qed.

(** ** The monad *)

Lemma bind_inr {A B : Type} (m : IO A) (k : A -> IO B) w a w' :
  m w = (inr a, w') -> bind m k w = k a w'.
Proof. intros H. unfold bind. rewrite H. reflexivity. Qed.

Lemma bind_inl {A B : Type} (m : IO A) (k : A -> IO B) w e w' :
  m w = (inl e, w') -> bind m k w = (inl e, w').
Proof. intros H. unfold bind. rewrite H. reflexivity. Qed.

Lemma bind_lift_inr {A B : Type} (r : exn + A) (k : A -> IO B) w a :
  r = inr a -> bind (lift r) k w = k a w.
Proof. intros ->. reflexivity. Qed.

Lemma files_log e w : files (log e w) = files w.
Proof. reflexivity. Qed.

Lemma protected_log e w : protected (log e w) = protected w.
Proof. reflexivity. Qed.

Lemma trace_log e w : trace (log e w) = trace w ++ [e].
Proof. reflexivity. Qed.

Lemma load_log e w p : load (log e w) p = load w p.
Proof. reflexivity. Qed.

Lemma open_rgba_load p w :
  open_rgba p w =
    (match load w p with
     | inl e => inl e
     | inr raw => inr (Image.convert raw RGBA)
     end, log (Read p) w).
Proof.
  unfold open_rgba, bind, Image.open, load.
  destruct (files w !! p) as [[fmt img | data | e | e] |]; reflexivity.
Qed.

(** Opening and converting, followed by the rest of the routine. *)
Lemma open_convert_bind {B : Type} p (k : image -> IO B) w :
  bind (Image.open p) (fun f => bind (lift (Image.convert_file f RGBA)) k) w =
    match load w p with
    | inl e => (inl e, log (Read p) w)
    | inr raw => k (Image.convert raw RGBA) (log (Read p) w)
    end.
Proof.
  unfold bind, Image.open, load.
  destruct (files w !! p) as [[fmt img | data | e | e] |]; reflexivity.
Qed.

Lemma holds_load w p img : holds w p img -> load w p = inr img.
Proof. intros [fmt H]. unfold load. rewrite H. reflexivity. Qed.

Lemma paste_self dst src box : Image.paste dst src box src = inr (pasted dst src box).
Proof.
  unfold Image.paste. rewrite bool_decide_eq_true_2 by reflexivity. reflexivity.
Qed.

(** ** [resize_and_center] *)

Section ResizeAndCenter.
Variable resample : resampler.

Lemma resize_and_center_eq img scale S w :
  Py.int (Py.float_of_int 1024 * scale)%float = inr S ->
  0 < S ->
  Combine.resize_and_center resample img scale w =
    (inr ({| im_mode := im_mode img; im_size := (S, S);
             im_getpixel := resample LANCZOS img (S, S) |}, centered S), w).
Proof.
  intros Hint HS. unfold Combine.resize_and_center.
  change (Combine.canvas_size.1) with 1024.
  rewrite (bind_lift_inr _ _ _ S Hint).
  unfold Image.resize. cbn [fst snd].
  destruct (Z.leb_spec S 0) as [Hle | _]; [lia |].
  reflexivity.
Qed.
End ResizeAndCenter.

(** ** [enumerate] and the slice *)

Lemma enumerate_from_bounds {A : Type} (l : list A) (i : nat) :
  Forall (fun it : nat * A => (i <= it.1 < i + length l)%nat) (Py.enumerate_from i l).
Proof.
  revert i. induction l as [| x l IH]; intros i; cbn [Py.enumerate_from length].
  - constructor.
  - constructor; [cbn; lia |].
    eapply Forall_impl; [apply IH |]. cbn. intros it. lia.
Qed.

Lemma enumerate_from_snd {A : Type} (l : list A) (i : nat) :
  (Py.enumerate_from i l).*2 = l.
Proof.
  revert i. induction l as [| x l IH]; intros i; cbn; [reflexivity |].
  rewrite IH. reflexivity.
Qed.

Lemma enumerate_slice_bounds (topping_paths : list string) :
  Forall (fun it : nat * string => (it.1 < 3)%nat) (Py.enumerate (take 3 topping_paths)).
Proof.
  eapply Forall_impl; [apply enumerate_from_bounds |].
  cbn. intros it [_ H]. rewrite length_take in H. lia.
Qed.

(** ** The routine as a function of what it finds at its input paths *)

Section LoopBody.
Variable resample : resampler.

(** One iteration of the topping loop. *)
Lemma topping_body_eq (i : nat) (p : string) (c : image) (w : world) :
  (i < 3)%nat ->
  Combine.topping_body resample (i, p) c w =
    (match load w p with
     | inl e => inl e
     | inr raw => inr (place c (topping_layer resample i raw))
     end, log (Read p) w).
Proof.
  intros Hi. unfold Combine.topping_body.
  rewrite open_convert_bind. destruct (load w p) as [e | raw]; [reflexivity |].
  rewrite (bind_lift_inr _ _ _ _ sizes_topping).
  erewrite bind_inr;
    [| apply (resize_and_center_eq resample _ _ 409); [exact int_scale_topping | lia]].
  destruct i as [| [| [| i]]]; [| | | lia];
    cbn [Nat.ltb Nat.leb length Combine.offsets];
    (erewrite bind_lift_inr; [| reflexivity]);
    unfold lift; rewrite paste_self; reflexivity.
Qed.

End LoopBody.

Section Refinement.
Variable resample : resampler.

Lemma toppings_loop_eq (its : list (nat * string)) (c : image) (w : world) :
  Forall (fun it : nat * string => (it.1 < 3)%nat) its ->
  for_in its (Combine.topping_body resample) c w =
    ((toppings_outcome resample (load w) its c).1,
     after w "" (Read <$> (toppings_outcome resample (load w) its c).2) None).
Proof.
  revert c w. induction its as [| [i p] its IH]; intros c w Hits.
  - cbn. unfold ret, after. cbn. rewrite app_nil_r. destruct w; reflexivity.
  - inversion Hits as [| ? ? Hi Hits']; subst. cbn in Hi.
    cbn [for_in toppings_outcome]. unfold bind at 1.
    rewrite (topping_body_eq resample i p c w Hi).
    destruct (load w p) as [e | raw].
    + reflexivity.
    + rewrite (IH _ _ Hits'). cbn [fst snd].
      unfold after. cbn [files protected trace log fmap list_fmap].
      rewrite <- app_assoc. reflexivity.
Qed.

(** [create_dish] computes its outcome. *)
Lemma create_dish_outcome bowl_path noodle_path topping_paths output_path w :
  Combine.create_dish resample bowl_path noodle_path topping_paths output_path w =
    let o := dish_outcome resample (load w) (bool_decide (output_path ∈ protected w))
               bowl_path noodle_path topping_paths output_path in
    (o.1.1, after w output_path o.1.2 o.2).
Proof.
  unfold Combine.create_dish, dish_outcome. cbv zeta.
  rewrite open_convert_bind. destruct (load w bowl_path) as [e | bowl]; [reflexivity |].
  rewrite (bind_lift_inr _ _ _ _ sizes_bowl).
  erewrite bind_inr;
    [| apply (resize_and_center_eq resample _ _ 819); [exact int_scale_bowl | lia]].
  unfold bind at 1, lift at 1. rewrite paste_self.
  rewrite open_convert_bind, load_log.
  destruct (load w noodle_path) as [e | noodles];
    [unfold after, log; cbn; rewrite <- app_assoc; reflexivity |].
  rewrite (bind_lift_inr _ _ _ _ sizes_noodle).
  erewrite bind_inr;
    [| apply (resize_and_center_eq resample _ _ 614); [exact int_scale_noodle | lia]].
  unfold bind at 1, lift at 1. rewrite paste_self.
  unfold bind at 1.
  rewrite toppings_loop_eq by apply enumerate_slice_bounds.
  change (load (log (Read noodle_path) (log (Read bowl_path) w))) with (load w).
  fold canvas.
  set (c := pasted (pasted _ _ _) _ _).
  change c with (place (place canvas (layer resample bowl 819, (102, 102)))
                       (layer resample noodles 614, (205, 205))).
  clearbody c.
  destruct (toppings_outcome resample (load w) (Py.enumerate (take 3 topping_paths)) _)
    as [[e | final_image] ps]; cbn [fst snd].
  - unfold after, log. cbn. rewrite <- !app_assoc. reflexivity.
  - unfold bind, Image.save, print, ret, after, store, log. cbn.
    destruct (bool_decide (output_path ∈ protected w)); cbn;
      rewrite <- !app_assoc; reflexivity.
Qed.
End Refinement.

(** ** The two ways a call can go *)

Section Cases.
Variable resample : resampler.
Variable ld : string -> exn + image.

(** Every path decodes ([raws] are the rasters) or one of them fails. *)
Lemma toppings_outcome_cases (ps : list string) (i : nat) (c : image) :
  (exists raws,
      Forall2 (fun p raw => ld p = inr raw) ps raws /\
      toppings_outcome resample ld (Py.enumerate_from i ps) c =
        (inr (foldl place c (imap (fun j => topping_layer resample (i + j)) raws)), ps))
  \/ (exists pre q post e,
      ps = pre ++ q :: post /\
      Forall (fun p => exists img, ld p = inr img) pre /\
      ld q = inl e /\
      toppings_outcome resample ld (Py.enumerate_from i ps) c = (inl e, pre ++ [q])).
Proof.
  revert i c. induction ps as [| p ps IH]; intros i c.
  - left. exists []. split; [constructor | reflexivity].
  - cbn [Py.enumerate_from toppings_outcome].
    destruct (ld p) as [e | raw] eqn:Hp.
    + right. exists [], p, ps, e. repeat split; [constructor | assumption].
    + destruct (IH (S i) (place c (topping_layer resample i raw)))
        as [(raws & Hall & Heq) | (pre & q & post & e & -> & Hpre & He & Heq)].
      * left. exists (raw :: raws). split; [constructor; assumption |].
        rewrite Heq. cbn [fst snd imap foldl]. rewrite Nat.add_0_r.
        do 3 f_equal. apply imap_ext. intros j x _. cbn. f_equal. lia.
      * right. exists (p :: pre), q, post, e. rewrite Heq.
        repeat split; [constructor; eauto | assumption].
Qed.

(** Either some input fails to open, and the call ends at the first such
    input in opening order, or all of them decode. *)
Lemma dish_outcome_split locked bowl_path noodle_path topping_paths output_path :
  let o := dish_outcome resample ld locked bowl_path noodle_path topping_paths output_path in
  let ins := inputs bowl_path noodle_path topping_paths in
  (exists pre q post e,
      ins = pre ++ q :: post /\
      Forall (fun p => exists img, ld p = inr img) pre /\
      ld q = inl e /\
      o = (inl e, Read <$> (pre ++ [q]), None))
  \/ (exists bowl noodles toppings,
      ld bowl_path = inr bowl /\ ld noodle_path = inr noodles /\
      Forall2 (fun p raw => ld p = inr raw) (take 3 topping_paths) toppings /\
      o = if locked
          then (inl (PermissionError output_path),
                (Read <$> ins) ++ [Write output_path], None)
          else (inr output_path,
                (Read <$> ins) ++
                  [Write output_path;
                   Print ("✅ Dish created successfully: " +:+ output_path)],
                Some (composite resample bowl noodles toppings))).
Proof.
  intros o ins. subst o ins. unfold dish_outcome, inputs.
  destruct (ld bowl_path) as [e | bowl] eqn:Hb.
  { left. exists [], bowl_path, (noodle_path :: take 3 topping_paths), e.
    repeat split; [constructor | assumption]. }
  destruct (ld noodle_path) as [e | noodles] eqn:Hn.
  { left. exists [bowl_path], noodle_path, (take 3 topping_paths), e.
    repeat split; [repeat constructor; eauto | assumption]. }
  unfold Py.enumerate.
  destruct (toppings_outcome_cases (take 3 topping_paths) 0
              (place (place canvas (layer resample bowl 819, (102, 102)))
                     (layer resample noodles 614, (205, 205))))
    as [(raws & Hall & Heq) | (pre & q & post & e & Hps & Hpre & He & Heq)];
    rewrite Heq; cbn [fst snd].
  - right. exists bowl, noodles, raws. repeat split; assumption.
  - left. exists (bowl_path :: noodle_path :: pre), q, post, e. rewrite Hps.
    repeat split; [repeat constructor; eauto | assumption].
Qed.

Lemma dish_outcome_cases locked bowl_path noodle_path topping_paths output_path :
  let o := dish_outcome resample ld locked bowl_path noodle_path topping_paths output_path in
  let ins := inputs bowl_path noodle_path topping_paths in
  (exists q e evs,
      q ∈ ins /\ ld q = inl e /\ o = (inl e, evs, None) /\
      Forall (fun ev => exists p, ev = Read p /\ p ∈ ins) evs)
  \/ (exists bowl noodles toppings,
      ld bowl_path = inr bowl /\ ld noodle_path = inr noodles /\
      Forall2 (fun p raw => ld p = inr raw) (take 3 topping_paths) toppings /\
      o = if locked
          then (inl (PermissionError output_path),
                (Read <$> ins) ++ [Write output_path], None)
          else (inr output_path,
                (Read <$> ins) ++
                  [Write output_path;
                   Print ("✅ Dish created successfully: " +:+ output_path)],
                Some (composite resample bowl noodles toppings))).
Proof.
  intros o ins.
  destruct (dish_outcome_split locked bowl_path noodle_path topping_paths output_path)
    as [(pre & q & post & e & Hins & _ & He & Ho) | Hok]; [left | right; exact Hok].
  fold ins in Hins. fold o in Ho.
  exists q, e, (Read <$> (pre ++ [q])). split; [| split; [exact He | split; [exact Ho |]]].
  - rewrite Hins. apply elem_of_app. right. left.
  - apply Forall_fmap, Forall_forall. intros p Hp. cbn.
    exists p. split; [reflexivity |]. rewrite Hins.
    apply elem_of_app in Hp as [Hp | Hp]; apply elem_of_app; [left; exact Hp |].
    apply list_elem_of_singleton in Hp as ->. right. left.
Qed.

(** The outcome looks only at the inputs. *)
Lemma toppings_outcome_ext (ld' : string -> exn + image) its c :
  (forall p, p ∈ its.*2 -> ld p = ld' p) ->
  toppings_outcome resample ld its c = toppings_outcome resample ld' its c.
Proof.
  revert c. induction its as [| [i p] its IH]; intros c Hext; [reflexivity |].
  cbn [toppings_outcome]. rewrite <- (Hext p) by (cbn; left).
  destruct (ld p) as [e | raw]; [reflexivity |].
  rewrite IH; [reflexivity |]. intros q Hq. apply Hext. cbn. right. exact Hq.
Qed.

Lemma dish_outcome_ext (ld' : string -> exn + image) locked
    bowl_path noodle_path topping_paths output_path :
  (forall p, p ∈ inputs bowl_path noodle_path topping_paths -> ld p = ld' p) ->
  dish_outcome resample ld locked bowl_path noodle_path topping_paths output_path =
  dish_outcome resample ld' locked bowl_path noodle_path topping_paths output_path.
Proof.
  intros Hext. unfold dish_outcome, inputs in *.
  rewrite <- (Hext bowl_path) by set_solver.
  rewrite <- (Hext noodle_path) by set_solver.
  destruct (ld bowl_path); [reflexivity |].
  destruct (ld noodle_path); [reflexivity |].
  rewrite (toppings_outcome_ext ld'); [reflexivity |].
  intros p Hp. apply Hext. unfold Py.enumerate in Hp.
  rewrite enumerate_from_snd in Hp. set_solver.
Qed.
End Cases.

(** ** Pillow's blend *)

(** [DIV255] is division by 255 rounded to the nearest integer, on the
    range a blend of two bytes can reach. *)
Lemma DIV255_round (a : Z) :
  0 <= a <= 65025 -> Image.DIV255 a = (a + 127) `div` 255.
Proof.
  intros Ha. unfold Image.DIV255. cbv zeta.
  rewrite !Z.shiftr_div_pow2 by lia.
  change (2 ^ 8) with 256.
  pose proof (Z.div_mod (a + 128) 256 ltac:(lia)) as H1.
  pose proof (Z.mod_pos_bound (a + 128) 256 ltac:(lia)) as H2.
  set (q := (a + 128) `div` 256) in *.
  set (r := (a + 128) `mod` 256) in *.
  assert (Hq : 0 <= q <= 254) by lia.
  apply Z.div_unique with (r := (a + 127) - 255 * ((q + (a + 128)) `div` 256)).
  - left.
    pose proof (Z.div_mod (q + (a + 128)) 256 ltac:(lia)) as H3.
    pose proof (Z.mod_pos_bound (q + (a + 128)) 256 ltac:(lia)) as H4.
    set (s := (q + (a + 128)) `div` 256) in *.
    set (t := (q + (a + 128)) `mod` 256) in *.
    lia.
  - lia.
Qed.

Lemma BLEND_round (mask in1 in2 : Z) :
  valid_band mask -> valid_band in1 -> valid_band in2 ->
  Image.BLEND mask in1 in2 = (in1 * (255 - mask) + in2 * mask + 127) `div` 255.
Proof.
  unfold valid_band, Image.BLEND. intros Hm H1 H2.
  apply DIV255_round. nia.
Qed.

Lemma BLEND_opaque (in1 in2 : Z) :
  valid_band in2 -> Image.BLEND 255 in1 in2 = in2.
Proof.
  unfold valid_band, Image.BLEND. intros H2.
  rewrite DIV255_round by lia.
  replace (in1 * (255 - 255) + in2 * 255 + 127) with (127 + in2 * 255) by lia.
  rewrite Z.div_add by lia. reflexivity.
Qed.

Lemma BLEND_transparent (in1 in2 : Z) :
  valid_band in1 -> Image.BLEND 0 in1 in2 = in1.
Proof.
  unfold valid_band, Image.BLEND. intros H1.
  rewrite DIV255_round by lia.
  replace (in1 * (255 - 0) + in2 * 0 + 127) with (127 + in1 * 255) by lia.
  rewrite Z.div_add by lia. reflexivity.
Qed.

(** ** Outcomes read back from a run *)

Section Runs.
Variable resample : resampler.

Lemma load_inr_holds w p img : load w p = inr img -> holds w p img.
Proof.
  unfold load, holds. destruct (files w !! p) as [[fmt i | d | e | e] |]; try discriminate.
  intros [= ->]. exists fmt. reflexivity.
Qed.

Lemma Forall2_load_holds w ps raws :
  Forall2 (fun p raw => load w p = inr raw) ps raws <-> Forall2 (holds w) ps raws.
Proof.
  split; intros H; eapply Forall2_impl; try exact H; cbn;
    auto using load_inr_holds, holds_load.
Qed.

Lemma events_since_after w out evs saved :
  events_since w (after w out evs saved) = evs.
Proof. unfold events_since, after. cbn. apply drop_app_length. Qed.

(** Valid inputs and a writable output path: the call succeeds, stores
    the composite and performs exactly these operations. *)
Lemma create_dish_ok w bowl_path noodle_path topping_paths output_path
      bowl noodles toppings :
  holds w bowl_path bowl ->
  holds w noodle_path noodles ->
  Forall2 (holds w) (take 3 topping_paths) toppings ->
  output_path ∉ protected w ->
  Combine.create_dish resample bowl_path noodle_path topping_paths output_path w =
    (inr output_path,
     after w output_path
       ((Read <$> inputs bowl_path noodle_path topping_paths) ++
          [Write output_path;
           Print ("✅ Dish created successfully: " +:+ output_path)])
       (Some (composite resample bowl noodles toppings))).
Proof.
  intros Hb Hn Ht Hout. rewrite create_dish_outcome.
  rewrite bool_decide_eq_false_2 by assumption.
  destruct (dish_outcome_cases resample (load w) false
              bowl_path noodle_path topping_paths output_path)
    as [(q & e & evs & Hq & He & _) | (b & n & ts & Hb' & Hn' & Ht' & ->)].
  - exfalso. unfold inputs in Hq.
    apply elem_of_cons in Hq as [-> | Hq];
      [rewrite (holds_load _ _ _ Hb) in He; discriminate |].
    apply elem_of_cons in Hq as [-> | Hq];
      [rewrite (holds_load _ _ _ Hn) in He; discriminate |].
    apply list_elem_of_lookup in Hq as [k Hk].
    destruct (Forall2_lookup_l _ _ _ _ _ Ht Hk) as (raw & _ & Hraw).
    rewrite (holds_load _ _ _ Hraw) in He. discriminate.
  - rewrite (holds_load _ _ _ Hb) in Hb'. rewrite (holds_load _ _ _ Hn) in Hn'.
    injection Hb' as <-. injection Hn' as <-.
    apply Forall2_load_holds in Ht'.
    assert (ts = toppings) as ->.
    { apply list_eq. intros k.
      destruct (take 3 topping_paths !! k) as [p |] eqn:Hk.
      - destruct (Forall2_lookup_l _ _ _ _ _ Ht Hk) as (r1 & -> & [f1 H1]).
        destruct (Forall2_lookup_l _ _ _ _ _ Ht' Hk) as (r2 & -> & [f2 H2]).
        congruence.
      - apply lookup_ge_None in Hk.
        rewrite (proj2 (lookup_ge_None ts k)),
                (proj2 (lookup_ge_None toppings k)); [reflexivity | |].
        + rewrite <- (Forall2_length _ _ _ Ht). exact Hk.
        + rewrite <- (Forall2_length _ _ _ Ht'). exact Hk. }
    reflexivity.
Qed.

(** A successful call had valid inputs and a writable output path. *)
Lemma create_dish_inr w bowl_path noodle_path topping_paths output_path r w' :
  Combine.create_dish resample bowl_path noodle_path topping_paths output_path w = (inr r, w') ->
  exists bowl noodles toppings,
    holds w bowl_path bowl /\ holds w noodle_path noodles /\
    Forall2 (holds w) (take 3 topping_paths) toppings /\
    (output_path ∉ protected w) /\ r = output_path /\
    w' = after w output_path
           ((Read <$> inputs bowl_path noodle_path topping_paths) ++
              [Write output_path;
               Print ("✅ Dish created successfully: " +:+ output_path)])
           (Some (composite resample bowl noodles toppings)).
Proof.
  rewrite create_dish_outcome. cbv zeta.
  destruct (dish_outcome_cases resample (load w)
              (bool_decide (output_path ∈ protected w))
              bowl_path noodle_path topping_paths output_path)
    as [(q & e & evs & Hq & He & -> & _) | (b & n & ts & Hb & Hn & Ht & ->)].
  - cbn. discriminate.
  - destruct (bool_decide (output_path ∈ protected w)) eqn:Hlock; cbn; [discriminate |].
    intros [= <- <-]. exists b, n, ts.
    apply bool_decide_eq_false in Hlock.
    repeat split; auto using load_inr_holds. apply Forall2_load_holds. exact Ht.
Qed.
End Runs.

(** ** Layers and pastes *)

Lemma resized_side_intro (key : string) (scale : float) (S : Z) :
  Py.getitem Combine.sizes key = inr scale ->
  Py.int (Py.float_of_int 1024 * scale)%float = inr S ->
  0 < S ->
  resized_side key S.
Proof.
  intros Hkey Hint HS resample img w.
  exists scale. eexists. exists (centered S).
  split; [exact Hkey |]. split; [exact Hint |].
  split; [apply (resize_and_center_eq resample img scale S w Hint HS) |].
  reflexivity.
Qed.

Lemma centered_at_intro (key : string) (scale : float) (S : Z) :
  Py.getitem Combine.sizes key = inr scale ->
  Py.int (Py.float_of_int 1024 * scale)%float = inr S ->
  0 < S ->
  centered_at key (centered S).
Proof.
  intros Hkey Hint HS resample img w.
  exists scale. eexists. split; [exact Hkey |].
  apply (resize_and_center_eq resample img scale S w Hint HS).
Qed.

Lemma topping_pasted_at_intro (i : nat) :
  (i < 3)%nat -> topping_pasted_at i (topping_pos i).
Proof.
  intros Hi resample w p raw c Hp. rewrite topping_body_eq by exact Hi.
  rewrite (holds_load _ _ _ Hp). reflexivity.
Qed.

Lemma create_dish_reads (resample : resampler) bowl_path noodle_path topping_paths output_path w p :
  Read p ∈ events_since w
    (Combine.create_dish resample bowl_path noodle_path topping_paths output_path w).2 ->
  p ∈ inputs bowl_path noodle_path topping_paths.
Proof.
  rewrite create_dish_outcome. cbv zeta. cbn [snd]. rewrite events_since_after.
  destruct (dish_outcome_cases resample (load w)
              (bool_decide (output_path ∈ protected w))
              bowl_path noodle_path topping_paths output_path)
    as [(q & e & evs & _ & _ & -> & Hevs) | (b & n & ts & _ & _ & _ & ->)].
  - cbn. intros Hin. rewrite Forall_forall in Hevs.
    destruct (Hevs _ Hin) as (p' & [= ->] & Hp'). exact Hp'.
  - destruct (bool_decide (output_path ∈ protected w)); cbn [fst snd];
      rewrite elem_of_app, list_elem_of_fmap;
      (intros [(p' & [= ->] & Hp') | Hin]; [exact Hp' |]);
      repeat (apply elem_of_cons in Hin as [Hin | Hin]; [discriminate |]);
      inversion Hin.
Qed.

Lemma paste_keeps_canvas (dst src : image) (box : Z * Z) (mask r : image) :
  Image.paste dst src box mask = inr r ->
  im_size r = im_size dst /\ im_mode r = im_mode dst.
Proof.
  unfold Image.paste. destruct (bool_decide _); [| discriminate].
  intros [= <-]. split; reflexivity.
Qed.

Lemma foldl_place_keeps_canvas (ls : list (image * (Z * Z))) (c : image) :
  im_size (foldl place c ls) = im_size c /\ im_mode (foldl place c ls) = im_mode c.
Proof.
  revert c. induction ls as [| l ls IH]; intros c; cbn [foldl]; [split; reflexivity |].
  destruct (IH (place c l)) as [-> ->]. split; reflexivity.
Qed.

(** The pixel that a paste leaves under the pasted rectangle. *)
Lemma pasted_pixel (dst src : image) (box : Z * Z) (x y : Z) :
  im_mode dst = RGBA -> im_mode src = RGBA ->
  Image.covers box (im_size src) x y = true ->
  let p := im_getpixel src (x - box.1) (y - box.2) in
  let q := im_getpixel dst x y in
  valid_pixel p -> valid_pixel q ->
  im_getpixel (pasted dst src box) x y =
    (mix (band_a p) (band_r q) (band_r p), mix (band_a p) (band_g q) (band_g p),
     mix (band_a p) (band_b q) (band_b p), mix (band_a p) (band_a q) (band_a p)).
Proof.
  intros Hd Hs Hcov p q (Hpr & Hpg & Hpb & Hpa) (Hqr & Hqg & Hqb & Hqa).
  unfold pasted. cbn [im_getpixel]. rewrite Hcov.
  unfold Image.convert. cbn [im_getpixel]. rewrite Hd, Hs. cbn [Image.convert_pixel].
  fold p q. unfold Image.blend_pixel, mix.
  rewrite !BLEND_round by assumption. reflexivity.
Qed.

Lemma mix_opaque (old new : Z) : mix 255 old new = new.
Proof.
  unfold mix. replace (old * (255 - 255) + new * 255 + 127) with (127 + new * 255) by lia.
  rewrite Z.div_add by lia. reflexivity.
Qed.

(** The routine run on the sample files: a corner of the canvas stays
    transparent, then bowl only, noodle over bowl, first topping, second
    topping. *)
Example sample_dish_pixels :
  let dish := composite nearest broth ramen [egg; basil] in
  [im_getpixel dish 0 0; im_getpixel dish 150 150; im_getpixel dish 250 250;
   im_getpixel dish 512 300; im_getpixel dish 270 700] =
  [(255, 255, 255, 0); (200, 120, 40, 255); (220, 170, 95, 191);
   (250, 250, 240, 255); (90, 90, 90, 255)].
Proof. vm_compute. reflexivity. Qed.

(** ** Properties of the specification *)

(** C1: for every input image the resized layer is 819x819 for the bowl,
    614x614 for the noodle and 409x409 for a topping, each side being
    [int(canvas_size[0] * scale)] in binary64 arithmetic. *)
Theorem resized_layer_dimensions :
  resized_side "bowl" 819 /\ resized_side "noodle" 614 /\ resized_side "topping" 409.
Proof.
  split; [| split].
  - apply (resized_side_intro _ _ _ sizes_bowl int_scale_bowl). lia.
  - apply (resized_side_intro _ _ _ sizes_noodle int_scale_noodle). lia.
  - apply (resized_side_intro _ _ _ sizes_topping int_scale_topping). lia.
Qed.

(** C2: a layer resized to side S is pasted with its top-left corner at
    ((1024 - S) // 2, (1024 - S) // 2): the bowl at (102, 102), the noodle
    at (205, 205), a topping at (307, 307) plus the i-th entry of the
    offset table, that is (307, 277), (267, 332) and (347, 332). *)
Theorem paste_positions (resample : resampler) (img : image) (scale : float)
    (S : Z) (w : world) :
  Py.int (Py.float_of_int Combine.canvas_size.1 * scale)%float = inr S ->
  0 < S ->
  (exists r,
      Combine.resize_and_center resample img scale w =
        (inr (r, (Py.floordiv (1024 - S) 2, Py.floordiv (1024 - S) 2)), w) /\
      im_size r = (S, S)) /\
  centered_at "bowl" (102, 102) /\
  centered_at "noodle" (205, 205) /\
  centered_at "topping" (307, 307) /\
  Combine.offsets = [(0, -30); (-40, 25); (40, 25)] /\
  topping_pasted_at 0 (307, 277) /\
  topping_pasted_at 1 (267, 332) /\
  topping_pasted_at 2 (347, 332).
Proof.
  intros Hint HS. split; [| split; [| split; [| split; [| split; [| split; [| split]]]]]].
  - eexists. split; [apply (resize_and_center_eq resample img scale S w Hint HS) |].
    reflexivity.
  - apply (centered_at_intro _ _ 819 sizes_bowl int_scale_bowl). lia.
  - apply (centered_at_intro _ _ 614 sizes_noodle int_scale_noodle). lia.
  - apply (centered_at_intro _ _ 409 sizes_topping int_scale_topping). lia.
  - reflexivity.
  - apply (topping_pasted_at_intro 0). lia.
  - apply (topping_pasted_at_intro 1). lia.
  - apply (topping_pasted_at_intro 2). lia.
Qed.

Lemma paste_positions_witness :
  (exists r,
      Combine.resize_and_center nearest egg 0.5%float pantry =
        (inr (r, (Py.floordiv (1024 - 512) 2, Py.floordiv (1024 - 512) 2)), pantry) /\
      im_size r = (512, 512)) /\
  topping_pasted_at 2 (347, 332).
Proof.
  assert (Hint : Py.int (Py.float_of_int Combine.canvas_size.1 * 0.5)%float = inr 512)
    by (vm_compute; reflexivity).
  assert (HS : 0 < 512) by lia.
  pose proof (paste_positions nearest egg 0.5%float 512 pantry Hint HS) as H.
  split; [exact (proj1 H) | exact (proj2 (proj2 (proj2 (proj2 (proj2 (proj2 (proj2 H)))))))].
Defined.

(** C3: [create_dish] composites min(len(topping_paths), 3) toppings. With
    any list of topping paths the call returns the same value and leaves the
    same world (so the same output file) as with its first three entries;
    it attempts to open no path beyond the bowl, the noodle and those three;
    and when it succeeds the stored image is the composite of exactly
    min(len(topping_paths), 3) topping rasters. *)
Theorem toppings_capped (resample : resampler) (bowl_path noodle_path : string)
    (topping_paths : list string) (output_path : string) (w : world) :
  Combine.create_dish resample bowl_path noodle_path topping_paths output_path w =
    Combine.create_dish resample bowl_path noodle_path (take 3 topping_paths) output_path w
  /\ (forall p,
        Read p ∈ events_since w
          (Combine.create_dish resample bowl_path noodle_path topping_paths output_path w).2 ->
        p ∈ bowl_path :: noodle_path :: take 3 topping_paths)
  /\ (forall r w',
        Combine.create_dish resample bowl_path noodle_path topping_paths output_path w
          = (inr r, w') ->
        exists bowl noodles toppings,
          holds w bowl_path bowl /\ holds w noodle_path noodles /\
          length toppings = Nat.min (length topping_paths) 3 /\
          Forall2 (holds w) (take 3 topping_paths) toppings /\
          files w' !! output_path =
            Some (ImageFile PNG (composite resample bowl noodles toppings))).
Proof.
  split; [| split].
  - unfold Combine.create_dish. rewrite take_take. reflexivity.
  - intros p. apply create_dish_reads.
  - intros r w' Hrun.
    destruct (create_dish_inr resample _ _ _ _ _ _ _ Hrun)
      as (b & n & ts & Hb & Hn & Hts & _ & _ & ->).
    exists b, n, ts. split; [exact Hb |]. split; [exact Hn |].
    split; [| split; [exact Hts |]].
    + rewrite <- (Forall2_length _ _ _ Hts), length_take. lia.
    + unfold after. cbn [files]. apply lookup_insert_eq.
Qed.

Lemma toppings_capped_witness :
  let paths := ["images/egg.png"; "images/basil.jpg"; "images/egg.png"; "images/missing.png"] in
  let run := Combine.create_dish nearest "images/broth.png" "images/noodle.png" paths
               "images/my_fusion_dish.png" pantry in
  run.1 = inr "images/my_fusion_dish.png" /\
  exists bowl noodles toppings,
    holds pantry "images/broth.png" bowl /\ holds pantry "images/noodle.png" noodles /\
    length toppings = Nat.min (length paths) 3 /\
    Forall2 (holds pantry) (take 3 paths) toppings /\
    files run.2 !! "images/my_fusion_dish.png" =
      Some (ImageFile PNG (composite nearest bowl noodles toppings)).
Proof.
  intros paths run.
  assert (Hb : holds pantry "images/broth.png" broth) by (exists PNG; vm_compute; reflexivity).
  assert (Hn : holds pantry "images/noodle.png" ramen) by (exists PNG; vm_compute; reflexivity).
  assert (He : holds pantry "images/egg.png" egg) by (exists PNG; vm_compute; reflexivity).
  assert (Hj : holds pantry "images/basil.jpg" basil) by (exists JPEG; vm_compute; reflexivity).
  assert (Hout : "images/my_fusion_dish.png" ∉ protected pantry)
    by (unfold pantry; cbn [protected]; intros Hin;
        apply elem_of_singleton in Hin; discriminate Hin).
  assert (Htops : Forall2 (holds pantry) (take 3 paths) [egg; basil; egg])
    by (repeat constructor; assumption).
  pose proof (create_dish_ok nearest pantry "images/broth.png" "images/noodle.png"
                paths "images/my_fusion_dish.png" broth ramen [egg; basil; egg]
                Hb Hn Htops Hout) as Hrun.
  fold run in Hrun. split; [rewrite Hrun; reflexivity |].
  apply (proj2 (proj2 (toppings_capped nearest "images/broth.png" "images/noodle.png"
                         paths "images/my_fusion_dish.png" pantry))
           "images/my_fusion_dish.png" run.2).
  fold run. rewrite Hrun. reflexivity.
Defined.

(** C4: the layers are pasted bowl first, then noodle, then the toppings
    in the order of the input list: with valid inputs the call stores the
    left fold of [paste] over that list of layers, starting from the empty
    canvas. Each paste uses the pasted image as its own mask; under the
    pasted rectangle every band becomes the old band and the new band mixed
    in proportion to the pasted pixel's alpha, so a fully opaque pixel
    replaces what was below it, and outside the rectangle nothing changes. *)
Theorem composite_order (resample : resampler) (w : world)
    (bowl_path noodle_path : string) (topping_paths : list string) (output_path : string)
    (bowl noodles : image) (toppings : list image) :
  holds w bowl_path bowl ->
  holds w noodle_path noodles ->
  Forall2 (holds w) (take 3 topping_paths) toppings ->
  output_path ∉ protected w ->
  (exists w',
      Combine.create_dish resample bowl_path noodle_path topping_paths output_path w =
        (inr output_path, w') /\
      files w' !! output_path =
        Some (ImageFile PNG
                (foldl place canvas
                   ((layer resample bowl 819, (102, 102)) ::
                    (layer resample noodles 614, (205, 205)) ::
                    imap (fun i t => (layer resample t 409, topping_pos i)) toppings)))) /\
  (forall c l, Image.paste c l.1 l.2 l.1 = inr (place c l)) /\
  (forall c l x y,
      im_mode c = RGBA -> im_mode l.1 = RGBA ->
      let p := im_getpixel l.1 (x - l.2.1) (y - l.2.2) in
      let q := im_getpixel c x y in
      valid_pixel p -> valid_pixel q ->
      (Image.covers l.2 (im_size l.1) x y = true ->
         im_getpixel (place c l) x y =
           (mix (band_a p) (band_r q) (band_r p), mix (band_a p) (band_g q) (band_g p),
            mix (band_a p) (band_b q) (band_b p), mix (band_a p) (band_a q) (band_a p)) /\
         (band_a p = 255 -> im_getpixel (place c l) x y = p)) /\
      (Image.covers l.2 (im_size l.1) x y = false ->
         im_getpixel (place c l) x y = q)).
Proof.
  intros Hb Hn Ht Hout. split; [| split].
  - eexists. split; [apply (create_dish_ok resample w _ _ _ _ _ _ _ Hb Hn Ht Hout) |].
    unfold after. cbn [files]. apply lookup_insert_eq.
  - intros c l. apply paste_self.
  - intros c l x y Hc Hl p q Hp Hq. split.
    + intros Hcov. pose proof (pasted_pixel c l.1 l.2 x y Hc Hl Hcov Hp Hq) as Hpx.
      split; [exact Hpx |].
      intros Ha. unfold place. rewrite Hpx. fold p. rewrite Ha, !mix_opaque.
      rewrite <- Ha. destruct p as [[[r g] b] a]. reflexivity.
    + intros Hcov. unfold place, pasted. cbn [im_getpixel]. rewrite Hcov. reflexivity.
Qed.

Lemma composite_order_witness :
  exists w',
    Combine.create_dish nearest "images/broth.png" "images/noodle.png"
      ["images/basil.jpg"; "images/egg.png"] "images/my_fusion_dish.png" pantry =
      (inr "images/my_fusion_dish.png", w') /\
    files w' !! "images/my_fusion_dish.png" =
      Some (ImageFile PNG
              (foldl place canvas
                 [(layer nearest broth 819, (102, 102));
                  (layer nearest ramen 614, (205, 205));
                  (layer nearest basil 409, (307, 277));
                  (layer nearest egg 409, (267, 332))])).
Proof.
  assert (Hb : holds pantry "images/broth.png" broth) by (exists PNG; vm_compute; reflexivity).
  assert (Hn : holds pantry "images/noodle.png" ramen) by (exists PNG; vm_compute; reflexivity).
  assert (He : holds pantry "images/egg.png" egg) by (exists PNG; vm_compute; reflexivity).
  assert (Hj : holds pantry "images/basil.jpg" basil) by (exists JPEG; vm_compute; reflexivity).
  assert (Hout : "images/my_fusion_dish.png" ∉ protected pantry)
    by (unfold pantry; cbn [protected]; intros Hin;
        apply elem_of_singleton in Hin; discriminate Hin).
  assert (Htops : Forall2 (holds pantry) (take 3 ["images/basil.jpg"; "images/egg.png"])
                    [basil; egg])
    by (repeat constructor; assumption).
  exact (proj1 (composite_order nearest pantry "images/broth.png" "images/noodle.png"
                  ["images/basil.jpg"; "images/egg.png"] "images/my_fusion_dish.png"
                  broth ramen [basil; egg] Hb Hn Htops Hout)).
Defined.

(** C5, counterexample: the bowl path holds a text file and the topping
    path does not exist. The call stops at the bowl with
    UnidentifiedImageError, which is not a FileNotFoundError. *)
Lemma undecodable_input_is_not_missing :
  ~ missing_file_claim nearest pantry "images/notes.txt" "images/noodle.png"
      ["images/missing.png"] "images/my_fusion_dish.png".
Proof.
  intros Hclaim. destruct Hclaim as (q & w' & Hrun & _).
  - exists "images/missing.png". split.
    + unfold inputs. cbn [take]. set_solver.
    + exists (FileNotFoundError "images/missing.png"). vm_compute. reflexivity.
  - rewrite create_dish_outcome in Hrun. vm_compute in Hrun. discriminate Hrun.
Qed.

Example undecodable_bowl_run :
  (Combine.create_dish nearest "images/notes.txt" "images/noodle.png"
     ["images/missing.png"] "images/my_fusion_dish.png" pantry).1 =
    inl (UnidentifiedImageError "images/notes.txt").
Proof. rewrite create_dish_outcome. vm_compute. reflexivity. Qed.

(** A truncated bowl is opened and the exception comes from the
    conversion; a directory is refused by the open itself: in both cases
    that exception is the one [create_dish] raises. *)
Example truncated_bowl_run :
  (Image.open "images/broth.png" larder).1 =
    inr (Opened (inl (OSError "image file is truncated"))) /\
  (Combine.create_dish nearest "images/broth.png" "images/missing.png" []
     "final_dish.png" larder).1 = inl (OSError "image file is truncated") /\
  (Combine.create_dish nearest "images/egg.png" "images/noodle" []
     "final_dish.png" larder).1 = inl (IsADirectoryError "images/noodle").
Proof.
  split; [vm_compute; reflexivity |].
  split; rewrite create_dish_outcome; vm_compute; reflexivity.
Qed.

(** C5, amended: if [Image.open(path).convert('RGBA')] raises for any input
    path (bowl, noodle, or one of the first three toppings), [create_dish]
    fails with the exception raised for the first such path in opening
    order, unchanged, whatever that exception is; it is FileNotFoundError
    when that path does not exist. The inputs before it were opened and
    converted, no file is created or modified, and the only I/O attempted
    is the opening of the inputs up to that path: the save step is never
    reached. *)
Theorem open_failure_propagates (resample : resampler) (w : world)
    (bowl_path noodle_path : string) (topping_paths : list string)
    (output_path : string) (p : string) :
  p ∈ inputs bowl_path noodle_path topping_paths ->
  cannot_be_opened w p ->
  exists pre q post e w',
    inputs bowl_path noodle_path topping_paths = pre ++ q :: post /\
    Forall (fun p' => exists img, (open_rgba p' w).1 = inr img) pre /\
    (open_rgba q w).1 = inl e /\
    (files w !! q = None -> e = FileNotFoundError q) /\
    Combine.create_dish resample bowl_path noodle_path topping_paths output_path w =
      (inl e, w') /\
    files w' = files w /\
    protected w' = protected w /\
    events_since w w' = Read <$> (pre ++ [q]).
Proof.
  intros Hp [e0 He0]. rewrite open_rgba_load in He0. cbn [fst] in He0.
  rewrite create_dish_outcome. cbv zeta.
  destruct (dish_outcome_split resample (load w)
              (bool_decide (output_path ∈ protected w))
              bowl_path noodle_path topping_paths output_path)
    as [(pre & q & post & e & Hins & Hpre & He & ->) | (b & n & ts & Hb & Hn & Ht & _)].
  - exists pre, q, post, e. eexists. cbn [fst snd].
    split; [exact Hins |].
    split; [eapply Forall_impl; [exact Hpre |]; cbn;
            intros p' [img Himg]; rewrite open_rgba_load, Himg; eauto |].
    split; [rewrite open_rgba_load, He; reflexivity |].
    split; [| split; [reflexivity | split; [reflexivity | split; [reflexivity |]]]].
    + intros Hnone. unfold load in He. rewrite Hnone in He. congruence.
    + apply events_since_after.
  - exfalso. unfold inputs in Hp.
    apply elem_of_cons in Hp as [-> | Hp]; [rewrite Hb in He0; discriminate |].
    apply elem_of_cons in Hp as [-> | Hp]; [rewrite Hn in He0; discriminate |].
    apply list_elem_of_lookup in Hp as [k Hk].
    destruct (Forall2_lookup_l _ _ _ _ _ Ht Hk) as (raw & _ & Hraw).
    rewrite Hraw in He0. discriminate.
Qed.

Lemma open_failure_propagates_witness :
  exists pre q post e w',
    inputs "images/broth.png" "images/noodle.png"
      ["images/egg.png"; "images/missing.png"] = pre ++ q :: post /\
    Forall (fun p' => exists img, (open_rgba p' pantry).1 = inr img) pre /\
    (open_rgba q pantry).1 = inl e /\
    (files pantry !! q = None -> e = FileNotFoundError q) /\
    Combine.create_dish nearest "images/broth.png" "images/noodle.png"
      ["images/egg.png"; "images/missing.png"] "images/my_fusion_dish.png" pantry =
      (inl e, w') /\
    files w' = files pantry /\
    protected w' = protected pantry /\
    events_since pantry w' = Read <$> (pre ++ [q]).
Proof.
  apply (open_failure_propagates nearest pantry "images/broth.png" "images/noodle.png"
           ["images/egg.png"; "images/missing.png"] "images/my_fusion_dish.png"
           "images/missing.png").
  - unfold inputs. cbn [take]. do 3 right. left.
  - exists (FileNotFoundError "images/missing.png"). vm_compute. reflexivity.
Defined.

(** C6: with valid input images of any dimensions and modes, the image
    saved at the output path is a PNG of exactly 1024x1024 pixels in mode
    RGBA; a paste never changes the size or the mode of the canvas. *)
Theorem output_is_canvas_sized (resample : resampler) (w : world)
    (bowl_path noodle_path : string) (topping_paths : list string) (output_path : string)
    (bowl noodles : image) (toppings : list image) :
  holds w bowl_path bowl ->
  holds w noodle_path noodles ->
  Forall2 (holds w) (take 3 topping_paths) toppings ->
  output_path ∉ protected w ->
  (exists w' img,
      Combine.create_dish resample bowl_path noodle_path topping_paths output_path w =
        (inr output_path, w') /\
      files w' !! output_path = Some (ImageFile PNG img) /\
      im_size img = (1024, 1024) /\
      im_mode img = RGBA) /\
  (forall dst src box mask r,
      Image.paste dst src box mask = inr r ->
      im_size r = im_size dst /\ im_mode r = im_mode dst).
Proof.
  intros Hb Hn Ht Hout. split; [| apply paste_keeps_canvas].
  eexists _, _. split; [apply (create_dish_ok resample w _ _ _ _ _ _ _ Hb Hn Ht Hout) |].
  split; [unfold after; cbn [files]; apply lookup_insert_eq |].
  unfold composite. apply foldl_place_keeps_canvas.
Qed.

Lemma output_is_canvas_sized_witness :
  exists w' img,
    Combine.create_dish nearest "images/broth.png" "images/noodle.png" []
      "final_dish.png" pantry = (inr "final_dish.png", w') /\
    files w' !! "final_dish.png" = Some (ImageFile PNG img) /\
    im_size img = (1024, 1024) /\
    im_mode img = RGBA.
Proof.
  assert (Hb : holds pantry "images/broth.png" broth) by (exists PNG; vm_compute; reflexivity).
  assert (Hn : holds pantry "images/noodle.png" ramen) by (exists PNG; vm_compute; reflexivity).
  assert (Hout : "final_dish.png" ∉ protected pantry)
    by (unfold pantry; cbn [protected]; intros Hin;
        apply elem_of_singleton in Hin; discriminate Hin).
  assert (Htops : Forall2 (holds pantry) (take 3 []) []) by constructor.
  exact (proj1 (output_is_canvas_sized nearest pantry "images/broth.png" "images/noodle.png"
                  [] "final_dish.png" broth ramen [] Hb Hn Htops Hout)).
Defined.

(** C7: [create_dish] is deterministic. Two calls with the same path
    arguments, in two worlds that hold the same files at the input paths
    and agree on whether the output path is writable, return the same value
    or raise the same exception and attempt the same I/O; when they succeed
    they leave the same image at the output path. Nothing else of the world
    (other files, earlier I/O) can influence the result. *)
Theorem create_dish_deterministic (resample : resampler)
    (bowl_path noodle_path : string) (topping_paths : list string) (output_path : string)
    (w1 w2 : world) :
  (forall p, p ∈ inputs bowl_path noodle_path topping_paths ->
             files w1 !! p = files w2 !! p) ->
  (output_path ∈ protected w1 <-> output_path ∈ protected w2) ->
  let run1 := Combine.create_dish resample bowl_path noodle_path topping_paths output_path w1 in
  let run2 := Combine.create_dish resample bowl_path noodle_path topping_paths output_path w2 in
  run1.1 = run2.1 /\
  events_since w1 run1.2 = events_since w2 run2.2 /\
  (forall v, run1.1 = inr v ->
     exists img, files run1.2 !! output_path = Some (ImageFile PNG img) /\
                 files run2.2 !! output_path = Some (ImageFile PNG img)).
Proof.
  intros Hfiles Hprot run1 run2. subst run1 run2.
  rewrite !create_dish_outcome. cbv zeta. cbn [fst snd].
  rewrite !events_since_after.
  assert (Hlock : bool_decide (output_path ∈ protected w1) =
                  bool_decide (output_path ∈ protected w2))
    by (apply bool_decide_ext; exact Hprot).
  assert (Hload : forall p, p ∈ inputs bowl_path noodle_path topping_paths ->
                            load w1 p = load w2 p)
    by (intros p Hp; unfold load; rewrite (Hfiles p Hp); reflexivity).
  rewrite <- Hlock.
  rewrite <- (dish_outcome_ext resample (load w1) (load w2) _ _ _ _ _ Hload).
  split; [reflexivity | split; [reflexivity |]].
  intros v.
  destruct (dish_outcome_cases resample (load w1)
              (bool_decide (output_path ∈ protected w1))
              bowl_path noodle_path topping_paths output_path)
    as [(q & e & evs & _ & _ & -> & _) | (b & n & ts & _ & _ & _ & ->)].
  - cbn. discriminate.
  - destruct (bool_decide (output_path ∈ protected w1)); cbn [fst snd]; [discriminate |].
    intros _. eexists. unfold after. cbn [files].
    split; apply lookup_insert_eq.
Qed.

Lemma create_dish_deterministic_witness :
  let run1 := Combine.create_dish nearest "images/broth.png" "images/noodle.png"
                ["images/egg.png"] "final_dish.png" pantry in
  let run2 := Combine.create_dish nearest "images/broth.png" "images/noodle.png"
                ["images/egg.png"] "final_dish.png" other_pantry in
  run1.1 = run2.1 /\
  events_since pantry run1.2 = events_since other_pantry run2.2 /\
  (forall v, run1.1 = inr v ->
     exists img, files run1.2 !! "final_dish.png" = Some (ImageFile PNG img) /\
                 files run2.2 !! "final_dish.png" = Some (ImageFile PNG img)).
Proof.
  apply (create_dish_deterministic nearest "images/broth.png" "images/noodle.png"
           ["images/egg.png"] "final_dish.png" pantry other_pantry).
  - intros p Hp. unfold inputs in Hp. cbn [take] in Hp.
    apply elem_of_cons in Hp as [-> | Hp]; [vm_compute; reflexivity |].
    apply elem_of_cons in Hp as [-> | Hp]; [vm_compute; reflexivity |].
    apply elem_of_cons in Hp as [-> | Hp]; [vm_compute; reflexivity |].
    inversion Hp.
  - unfold pantry, other_pantry. cbn [protected]. split; intros Hin.
    + apply elem_of_singleton in Hin. discriminate Hin.
    + apply elem_of_empty in Hin. destruct Hin.
Defined.

(** C8, counterexample: a successful call on the sample files also prints
    a line on the standard output. *)
Lemma success_prints_a_line :
  exists w',
    Combine.create_dish nearest "images/broth.png" "images/noodle.png"
      ["images/egg.png"] "images/my_fusion_dish.png" pantry =
      (inr "images/my_fusion_dish.png", w') /\
    events_since pantry w' =
      [Read "images/broth.png"; Read "images/noodle.png"; Read "images/egg.png";
       Write "images/my_fusion_dish.png";
       Print "✅ Dish created successfully: images/my_fusion_dish.png"] /\
    ~ reads_and_one_write
        (inputs "images/broth.png" "images/noodle.png" ["images/egg.png"])
        "images/my_fusion_dish.png" (events_since pantry w').
Proof.
  assert (Hb : holds pantry "images/broth.png" broth) by (exists PNG; vm_compute; reflexivity).
  assert (Hn : holds pantry "images/noodle.png" ramen) by (exists PNG; vm_compute; reflexivity).
  assert (He : holds pantry "images/egg.png" egg) by (exists PNG; vm_compute; reflexivity).
  assert (Hout : "images/my_fusion_dish.png" ∉ protected pantry)
    by (unfold pantry; cbn [protected]; intros Hin;
        apply elem_of_singleton in Hin; discriminate Hin).
  assert (Htops : Forall2 (holds pantry) (take 3 ["images/egg.png"]) [egg])
    by (repeat constructor; assumption).
  eexists. split;
    [apply (create_dish_ok nearest pantry _ _ _ _ _ _ _ Hb Hn Htops Hout) |].
  rewrite events_since_after. split; [reflexivity |].
  intros [Hall _]. cbn in Hall.
  do 4 (apply Forall_cons in Hall as [_ Hall]).
  apply Forall_cons in Hall as [[(p & Hp & _) | Hp] _]; discriminate Hp.
Qed.

(** C8, amended: on success the I/O of [create_dish] is, in order, the
    opening of the bowl path, of the noodle path and of the first three
    topping paths, one write of the output path and one line printed on the
    standard output; the only file created or modified is the one at the
    output path, and write protection is as before. *)
Theorem side_effects_on_success (resample : resampler) (w : world)
    (bowl_path noodle_path : string) (topping_paths : list string) (output_path : string)
    (r : string) (w' : world) :
  Combine.create_dish resample bowl_path noodle_path topping_paths output_path w =
    (inr r, w') ->
  events_since w w' =
    (Read <$> bowl_path :: noodle_path :: take 3 topping_paths) ++
      [Write output_path; Print ("✅ Dish created successfully: " +:+ output_path)] /\
  (exists img, files w' = <[output_path := ImageFile PNG img]> (files w)) /\
  (forall p, p <> output_path -> files w' !! p = files w !! p) /\
  protected w' = protected w.
Proof.
  intros Hrun.
  destruct (create_dish_inr resample _ _ _ _ _ _ _ Hrun)
    as (b & n & ts & _ & _ & _ & _ & _ & ->).
  split; [apply events_since_after |].
  split; [eexists; reflexivity |].
  split; [| reflexivity].
  intros p Hp. unfold after. cbn [files]. apply lookup_insert_ne. congruence.
Qed.

Lemma side_effects_on_success_witness :
  exists w',
    events_since pantry w' =
      (Read <$> "images/broth.png" :: "images/noodle.png" :: take 3 ["images/egg.png"]) ++
        [Write "images/my_fusion_dish.png";
         Print ("✅ Dish created successfully: " +:+ "images/my_fusion_dish.png")] /\
    (exists img, files w' = <["images/my_fusion_dish.png" := ImageFile PNG img]> (files pantry)) /\
    (forall p, p <> "images/my_fusion_dish.png" -> files w' !! p = files pantry !! p) /\
    protected w' = protected pantry.
Proof.
  assert (Hb : holds pantry "images/broth.png" broth) by (exists PNG; vm_compute; reflexivity).
  assert (Hn : holds pantry "images/noodle.png" ramen) by (exists PNG; vm_compute; reflexivity).
  assert (He : holds pantry "images/egg.png" egg) by (exists PNG; vm_compute; reflexivity).
  assert (Hout : "images/my_fusion_dish.png" ∉ protected pantry)
    by (unfold pantry; cbn [protected]; intros Hin;
        apply elem_of_singleton in Hin; discriminate Hin).
  assert (Htops : Forall2 (holds pantry) (take 3 ["images/egg.png"]) [egg])
    by (repeat constructor; assumption).
  eexists.
  exact (side_effects_on_success nearest pantry "images/broth.png" "images/noodle.png"
           ["images/egg.png"] "images/my_fusion_dish.png" _ _
           (create_dish_ok nearest pantry _ _ _ _ _ _ _ Hb Hn Htops Hout)).
Defined.

Lemma bind_ext {A B : Type} (m : IO A) (k k' : A -> IO B) (w : world) :
  (forall a w', k a w' = k' a w') -> bind m k w = bind m k' w.
Proof. intros H. unfold bind. destruct (m w) as [[e | a] w']; [reflexivity | apply H]. Qed.

Lemma for_in_ext {A S : Type} (l : list A) (body body' : A -> S -> IO S) (s : S) (w : world) :
  Forall (fun x => forall s w, body x s w = body' x s w) l ->
  for_in l body s w = for_in l body' s w.
Proof.
  revert s w. induction l as [| x l IH]; intros s w Hl; [reflexivity |].
  apply Forall_cons in Hl as [Hx Hl]. cbn [for_in].
  unfold bind. rewrite Hx. destruct (body' x s w) as [[e | s'] w']; [reflexivity |].
  apply IH, Hl.
Qed.

(** Below the length of the table the body takes the table entry, as the
    body without fallback does. *)
Lemma topping_body_in_table (resample : resampler) (i : nat) (p : string)
    (c : image) (w : world) :
  (i < length Combine.offsets)%nat ->
  Combine.topping_body resample (i, p) c w =
  topping_body_no_fallback resample (i, p) c w.
Proof.
  intros Hi. apply Nat.ltb_lt in Hi.
  unfold Combine.topping_body, topping_body_no_fallback. rewrite Hi. reflexivity.
Qed.

(** C9: in the topping loop of [create_dish] the index [i] is always below
    the length of the offset table, which has three entries, so the branch
    that falls back to (0, 0) is never taken. For every list of topping
    paths and every world, the loop over [enumerate(topping_paths[:3])] and
    the whole of [create_dish] do exactly what they do when line 59 is
    [offset_x, offset_y = offsets[i]], with no test and no fallback. The
    two bodies do differ from index 3 on, where the one of the code pastes
    at the centred corner (307, 307) and the other raises IndexError: it is
    the slice that keeps the loop away from there. *)
Theorem offset_index_in_bounds (resample : resampler)
    (bowl_path noodle_path : string) (topping_paths : list string)
    (output_path : string) (w : world) :
  length Combine.offsets = 3%nat /\
  Forall (fun it : nat * string =>
            (it.1 <? length Combine.offsets)%nat = true /\
            exists off,
              Combine.offsets !! it.1 = Some off /\
              (if (it.1 <? length Combine.offsets)%nat
               then lift (Py.list_getitem Combine.offsets it.1)
               else ret (0, 0)) = ret off)
         (Py.enumerate (take 3 topping_paths)) /\
  (forall final_image w0,
      for_in (Py.enumerate (take 3 topping_paths))
        (Combine.topping_body resample) final_image w0 =
      for_in (Py.enumerate (take 3 topping_paths))
        (topping_body_no_fallback resample) final_image w0) /\
  Combine.create_dish resample bowl_path noodle_path topping_paths output_path w =
    create_dish_no_fallback resample bowl_path noodle_path topping_paths output_path w /\
  (forall i p raw c,
      (3 <= i)%nat -> holds w p raw ->
      Combine.topping_body resample (i, p) c w =
        (inr (pasted c (layer resample raw 409) (307, 307)), log (Read p) w) /\
      topping_body_no_fallback resample (i, p) c w =
        (inl (IndexError "list index out of range"), log (Read p) w)).
Proof.
  assert (Hloop : forall final_image w0,
             for_in (Py.enumerate (take 3 topping_paths))
               (Combine.topping_body resample) final_image w0 =
             for_in (Py.enumerate (take 3 topping_paths))
               (topping_body_no_fallback resample) final_image w0).
  { intros c w0. apply for_in_ext.
    eapply Forall_impl; [apply enumerate_slice_bounds |].
    intros [i p] Hi c' w'. apply topping_body_in_table. exact Hi. }
  split; [reflexivity |]. split; [| split; [exact Hloop | split]].
  - eapply Forall_impl; [apply enumerate_slice_bounds |].
    intros [i p] Hi. cbn [fst] in *.
    assert (Hlt : (i <? length Combine.offsets)%nat = true) by (apply Nat.ltb_lt; exact Hi).
    split; [exact Hlt |].
    destruct (lookup_lt_is_Some_2 Combine.offsets i Hi) as [off Hoff].
    exists off. split; [exact Hoff |].
    rewrite Hlt. unfold Py.list_getitem. rewrite Hoff. reflexivity.
  - unfold Combine.create_dish, create_dish_no_fallback. cbv zeta.
    apply bind_ext. intros bowl_file w1.
    apply bind_ext. intros bowl w2.
    apply bind_ext. intros scale w3.
    apply bind_ext. intros [bowl_resized bowl_pos] w4.
    apply bind_ext. intros final_image w5.
    apply bind_ext. intros noodles_file w6.
    apply bind_ext. intros noodles w7.
    apply bind_ext. intros scale' w8.
    apply bind_ext. intros [noodles_resized noodles_pos] w9.
    apply bind_ext. intros final_image' w10.
    unfold bind. rewrite Hloop. reflexivity.
  - intros i p raw c Hi Hp.
    unfold Combine.topping_body, topping_body_no_fallback.
    rewrite !open_convert_bind, (holds_load _ _ _ Hp).
    rewrite !(bind_lift_inr _ _ _ _ sizes_topping).
    erewrite !bind_inr;
      try (apply (resize_and_center_eq resample _ _ 409); [exact int_scale_topping | lia]).
    destruct (Nat.ltb_spec i (length Combine.offsets)) as [Hlt | _];
      [cbn in Hlt; lia |].
    split.
    + unfold bind, ret, lift. rewrite paste_self. reflexivity.
    + unfold bind, lift, Py.list_getitem.
      rewrite (proj2 (lookup_ge_None Combine.offsets i)) by (cbn; lia).
      reflexivity.
Qed.

Lemma offset_index_in_bounds_witness :
  Combine.topping_body nearest (3%nat, "images/egg.png") canvas pantry =
    (inr (pasted canvas (layer nearest egg 409) (307, 307)),
     log (Read "images/egg.png") pantry) /\
  topping_body_no_fallback nearest (3%nat, "images/egg.png") canvas pantry =
    (inl (IndexError "list index out of range"), log (Read "images/egg.png") pantry).
Proof.
  assert (He : holds pantry "images/egg.png" egg) by (exists PNG; vm_compute; reflexivity).
  apply (proj2 (proj2 (proj2 (proj2
           (offset_index_in_bounds nearest "images/broth.png" "images/noodle.png"
              ["images/egg.png"; "images/egg.png"; "images/egg.png"; "images/egg.png"]
              "final_dish.png" pantry)))) 3%nat "images/egg.png" egg canvas).
  - lia.
  - exact He.
Defined.

(** C10: the [create_dish] of [combine.py] and the [create_dish] of
    [create_dish.py] agree: they use the same constants and the same nested
    [resize_and_center], and for every bowl path, noodle path, list of
    topping paths and output path, in every world, they return the same
    value (or raise the same exception) and leave the same world, hence the
    same output image. *)
Theorem create_dish_files_agree (resample : resampler) (bowl_path noodle_path : string)
    (topping_paths : list string) (output_path : string) (w : world) :
  (Combine.canvas_size, Combine.sizes, Combine.offsets) =
    (CreateDish.canvas_size, CreateDish.sizes, CreateDish.offsets) /\
  (forall img scale,
      Combine.resize_and_center resample img scale w =
      CreateDish.resize_and_center resample img scale w) /\
  Combine.create_dish resample bowl_path noodle_path topping_paths output_path w =
  CreateDish.create_dish resample bowl_path noodle_path topping_paths output_path w.
Proof.
  split; [| split].
  - reflexivity.
  - intros img scale. reflexivity.
  - unfold Combine.create_dish, CreateDish.create_dish. reflexivity.
Qed.

(** ** Further properties of [create_dish] *)

Lemma holds_Forall2 (w : world) (ps : list string) :
  Forall (fun p => exists img, holds w p img) ps ->
  exists imgs, Forall2 (holds w) ps imgs.
Proof.
  induction 1 as [| p ps [img Hp] _ [imgs IH]].
  - exists []. constructor.
  - exists (img :: imgs). constructor; assumption.
Qed.

Lemma Forall2_holds_Forall (w : world) (ps : list string) (imgs : list image) :
  Forall2 (holds w) ps imgs -> Forall (fun p => exists img, holds w p img) ps.
Proof. induction 1; constructor; eauto. Qed.

Lemma valid_inputs_intro w bowl_path noodle_path topping_paths bowl noodles toppings :
  holds w bowl_path bowl -> holds w noodle_path noodles ->
  Forall2 (holds w) (take 3 topping_paths) toppings ->
  valid_inputs w bowl_path noodle_path topping_paths.
Proof.
  intros Hb Hn Ht. unfold valid_inputs, inputs.
  constructor; [eauto |]. constructor; [eauto |].
  eapply Forall2_holds_Forall, Ht.
Qed.

Lemma valid_inputs_elim w bowl_path noodle_path topping_paths :
  valid_inputs w bowl_path noodle_path topping_paths ->
  exists bowl noodles toppings,
    holds w bowl_path bowl /\ holds w noodle_path noodles /\
    Forall2 (holds w) (take 3 topping_paths) toppings.
Proof.
  unfold valid_inputs, inputs. intros H.
  apply Forall_cons in H as [[bowl Hb] H].
  apply Forall_cons in H as [[noodles Hn] H].
  destruct (holds_Forall2 _ _ H) as [toppings Ht].
  exists bowl, noodles, toppings. auto.
Qed.

(** X4: with valid inputs and a write-protected output path, [create_dish]
    opens every input, attempts the write and raises PermissionError for
    the output path; the files are as before and the success line is not
    printed. *)
Theorem protected_output_raises (resample : resampler) (w : world)
    (bowl_path noodle_path : string) (topping_paths : list string) (output_path : string) :
  valid_inputs w bowl_path noodle_path topping_paths ->
  output_path ∈ protected w ->
  exists w',
    Combine.create_dish resample bowl_path noodle_path topping_paths output_path w =
      (inl (PermissionError output_path), w') /\
    files w' = files w /\
    events_since w w' =
      (Read <$> bowl_path :: noodle_path :: take 3 topping_paths) ++ [Write output_path].
Proof.
  intros Hvalid Hlock. rewrite create_dish_outcome. cbv zeta.
  rewrite bool_decide_eq_true_2 by exact Hlock.
  destruct (dish_outcome_split resample (load w) true
              bowl_path noodle_path topping_paths output_path)
    as [(pre & q & post & e & Hins & _ & He & _) | (b & n & ts & _ & _ & _ & ->)].
  - exfalso. unfold valid_inputs in Hvalid. rewrite Hins in Hvalid.
    apply Forall_app in Hvalid as [_ Hvalid].
    apply Forall_cons in Hvalid as [[img Hq] _].
    rewrite (holds_load _ _ _ Hq) in He. discriminate.
  - eexists. cbn [fst snd]. split; [reflexivity |].
    split; [reflexivity | apply events_since_after].
Qed.

Lemma protected_output_raises_witness :
  exists w',
    Combine.create_dish nearest "images/broth.png" "images/noodle.png" ["images/egg.png"]
      "images/broth.png" pantry = (inl (PermissionError "images/broth.png"), w') /\
    files w' = files pantry /\
    events_since pantry w' =
      (Read <$> "images/broth.png" :: "images/noodle.png" :: take 3 ["images/egg.png"]) ++
        [Write "images/broth.png"].
Proof.
  assert (Hb : holds pantry "images/broth.png" broth) by (exists PNG; vm_compute; reflexivity).
  assert (Hn : holds pantry "images/noodle.png" ramen) by (exists PNG; vm_compute; reflexivity).
  assert (He : holds pantry "images/egg.png" egg) by (exists PNG; vm_compute; reflexivity).
  assert (Htops : Forall2 (holds pantry) (take 3 ["images/egg.png"]) [egg])
    by (repeat constructor; assumption).
  apply (protected_output_raises nearest pantry "images/broth.png" "images/noodle.png"
           ["images/egg.png"] "images/broth.png").
  - exact (valid_inputs_intro _ _ _ _ _ _ _ Hb Hn Htops).
  - unfold pantry. cbn [protected]. apply elem_of_singleton. reflexivity.
Defined.

(** X5: with an empty list of toppings the loop does nothing: the stored
    image is the bowl pasted on the empty canvas at (102, 102) and the
    noodles pasted on that at (205, 205), and the only files opened are the
    bowl and the noodles. *)
Theorem no_toppings (resample : resampler) (w : world)
    (bowl_path noodle_path output_path : string) (bowl noodles : image) :
  holds w bowl_path bowl ->
  holds w noodle_path noodles ->
  output_path ∉ protected w ->
  exists w' c1 c2,
    Combine.create_dish resample bowl_path noodle_path [] output_path w =
      (inr output_path, w') /\
    Image.paste (Image.new RGBA (1024, 1024) (255, 255, 255, 0))
      (layer resample bowl 819) (102, 102) (layer resample bowl 819) = inr c1 /\
    Image.paste c1 (layer resample noodles 614) (205, 205) (layer resample noodles 614)
      = inr c2 /\
    files w' !! output_path = Some (ImageFile PNG c2) /\
    events_since w w' =
      [Read bowl_path; Read noodle_path; Write output_path;
       Print ("✅ Dish created successfully: " +:+ output_path)].
Proof.
  intros Hb Hn Hout.
  assert (Ht : Forall2 (holds w) (take 3 []) []) by constructor.
  eexists _, _, _.
  split; [apply (create_dish_ok resample w _ _ _ _ _ _ _ Hb Hn Ht Hout) |].
  split; [apply paste_self |]. split; [apply paste_self |].
  split; [unfold after; cbn [files]; apply lookup_insert_eq |].
  apply events_since_after.
Qed.

Lemma no_toppings_witness :
  exists w' c1 c2,
    Combine.create_dish nearest "images/broth.png" "images/noodle.png" []
      "final_dish.png" pantry = (inr "final_dish.png", w') /\
    Image.paste (Image.new RGBA (1024, 1024) (255, 255, 255, 0))
      (layer nearest broth 819) (102, 102) (layer nearest broth 819) = inr c1 /\
    Image.paste c1 (layer nearest ramen 614) (205, 205) (layer nearest ramen 614)
      = inr c2 /\
    files w' !! "final_dish.png" = Some (ImageFile PNG c2) /\
    events_since pantry w' =
      [Read "images/broth.png"; Read "images/noodle.png"; Write "final_dish.png";
       Print ("✅ Dish created successfully: " +:+ "final_dish.png")].
Proof.
  assert (Hb : holds pantry "images/broth.png" broth) by (exists PNG; vm_compute; reflexivity).
  assert (Hn : holds pantry "images/noodle.png" ramen) by (exists PNG; vm_compute; reflexivity).
  assert (Hout : "final_dish.png" ∉ protected pantry)
    by (unfold pantry; cbn [protected]; intros Hin;
        apply elem_of_singleton in Hin; discriminate Hin).
  exact (no_toppings nearest pantry "images/broth.png" "images/noodle.png"
           "final_dish.png" broth ramen Hb Hn Hout).
Defined.

(** X6: the routine is idempotent when the output path is not one of its
    inputs: after a successful call, the same call succeeds again, performs
    the same I/O and leaves every file, the output included, as the first
    call left it. *)
Theorem rerun_same_output (resample : resampler) (w : world)
    (bowl_path noodle_path : string) (topping_paths : list string) (output_path : string)
    (r : string) (w' : world) :
  Combine.create_dish resample bowl_path noodle_path topping_paths output_path w =
    (inr r, w') ->
  output_path ∉ bowl_path :: noodle_path :: take 3 topping_paths ->
  exists w'',
    Combine.create_dish resample bowl_path noodle_path topping_paths output_path w' =
      (inr r, w'') /\
    files w'' = files w' /\
    events_since w' w'' = events_since w w'.
Proof.
  intros Hrun Hfresh.
  destruct (create_dish_inr resample _ _ _ _ _ _ _ Hrun)
    as (b & n & ts & Hb & Hn & Ht & Hout & -> & ->).
  set (evs := (Read <$> inputs bowl_path noodle_path topping_paths) ++ _).
  set (dish := composite resample b n ts).
  assert (Hkeep : forall p img, p <> output_path -> holds w p img ->
                                holds (after w output_path evs (Some dish)) p img).
  { intros p img Hp [fmt Hf]. exists fmt. unfold after. cbn [files].
    rewrite lookup_insert_ne by congruence. exact Hf. }
  assert (Hb' : holds (after w output_path evs (Some dish)) bowl_path b).
  { apply Hkeep; [| exact Hb]. intros ->. apply Hfresh. left. }
  assert (Hn' : holds (after w output_path evs (Some dish)) noodle_path n).
  { apply Hkeep; [| exact Hn]. intros ->. apply Hfresh. right. left. }
  assert (Ht' : Forall2 (holds (after w output_path evs (Some dish)))
                  (take 3 topping_paths) ts).
  { apply Forall2_same_length_lookup. split; [eapply Forall2_length, Ht |].
    intros k p img Hk Hi. apply Hkeep.
    - intros ->. apply Hfresh. do 2 right. eapply list_elem_of_lookup_2, Hk.
    - eapply Forall2_lookup_lr; eassumption. }
  eexists. split;
    [apply (create_dish_ok resample _ _ _ _ _ _ _ _ Hb' Hn' Ht' Hout) |].
  rewrite !events_since_after. split; [| reflexivity].
  unfold after. cbn [files]. apply insert_insert_eq.
Qed.

Lemma rerun_same_output_witness :
  exists w' w'',
    Combine.create_dish nearest "images/broth.png" "images/noodle.png" ["images/egg.png"]
      "final_dish.png" pantry = (inr "final_dish.png", w') /\
    Combine.create_dish nearest "images/broth.png" "images/noodle.png" ["images/egg.png"]
      "final_dish.png" w' = (inr "final_dish.png", w'') /\
    files w'' = files w' /\
    events_since w' w'' = events_since pantry w'.
Proof.
  assert (Hb : holds pantry "images/broth.png" broth) by (exists PNG; vm_compute; reflexivity).
  assert (Hn : holds pantry "images/noodle.png" ramen) by (exists PNG; vm_compute; reflexivity).
  assert (He : holds pantry "images/egg.png" egg) by (exists PNG; vm_compute; reflexivity).
  assert (Htops : Forall2 (holds pantry) (take 3 ["images/egg.png"]) [egg])
    by (repeat constructor; assumption).
  assert (Hout : "final_dish.png" ∉ protected pantry)
    by (unfold pantry; cbn [protected]; intros Hin;
        apply elem_of_singleton in Hin; discriminate Hin).
  pose proof (create_dish_ok nearest pantry "images/broth.png" "images/noodle.png"
                ["images/egg.png"] "final_dish.png" broth ramen [egg] Hb Hn Htops Hout)
    as Hrun.
  assert (Hfresh : "final_dish.png" ∉
                   "images/broth.png" :: "images/noodle.png" :: take 3 ["images/egg.png"]).
  { cbn [take]. intros Hin.
    repeat (apply elem_of_cons in Hin as [Hin | Hin]; [discriminate Hin |]).
    inversion Hin. }
  destruct (rerun_same_output nearest pantry _ _ _ _ _ _ Hrun Hfresh) as (w'' & H2).
  eexists _, w''. split; [exact Hrun | exact H2].
Defined.

(** ** Geometry of the layers *)

Lemma place_outside (c : image) (l : image * (Z * Z)) (x y : Z) :
  Image.covers l.2 (im_size l.1) x y = false ->
  im_getpixel (place c l) x y = im_getpixel c x y.
Proof. intros H. unfold place, pasted. cbn [im_getpixel]. rewrite H. reflexivity. Qed.

Lemma foldl_place_outside (ls : list (image * (Z * Z))) (c : image) (x y : Z) :
  Forall (fun l => Image.covers l.2 (im_size l.1) x y = false) ls ->
  im_getpixel (foldl place c ls) x y = im_getpixel c x y.
Proof.
  revert c. induction ls as [| l ls IH]; intros c Hls; cbn [foldl]; [reflexivity |].
  apply Forall_cons in Hls as [Hl Hls].
  rewrite (IH _ Hls). apply place_outside, Hl.
Qed.

Lemma covers_within (box : Z * Z) (S lo hi x y : Z) :
  within box S lo hi ->
  Image.covers box (S, S) x y = true ->
  lo <= x < hi /\ lo <= y < hi.
Proof.
  unfold within, Image.covers. cbn [fst snd]. intros (H1 & H2 & H3 & H4) Hc.
  apply andb_prop in Hc as [Hc Hy2]. apply andb_prop in Hc as [Hc Hy1].
  apply andb_prop in Hc as [Hx1 Hx2]. lia.
Qed.

Lemma topping_pos_within (i : nat) : within (topping_pos i) 409 205 819.
Proof.
  destruct i as [| [| [| i]]]; unfold within; vm_compute; repeat split; discriminate.
Qed.

Lemma toppings_within (resample : resampler) (toppings : list image) (k : nat) :
  Forall (fun l : image * (Z * Z) =>
            exists S, im_size l.1 = (S, S) /\ within l.2 S 205 819)
         (imap (fun j => topping_layer resample (k + j)) toppings).
Proof.
  revert k. induction toppings as [| t ts IH]; intros k; cbn [imap]; constructor.
  - exists 409. split; [reflexivity | apply topping_pos_within].
  - eapply Forall_impl; [| intros l Hl; exact Hl].
    rewrite (imap_ext _ (fun j => topping_layer resample (S k + j))); [apply IH |].
    intros j x _. cbn. f_equal. lia.
Qed.

(** X7: no layer is clipped. With valid inputs the stored image is the
    fold of pastes over a list of square layers, bowl first; the bowl
    occupies the square from 102 to 921 of the 1024-pixel canvas and every
    later layer (noodles, toppings with their offsets) lies inside the
    square from 205 to 819 that the noodles occupy. *)
Theorem layers_nested (resample : resampler) (w : world)
    (bowl_path noodle_path : string) (topping_paths : list string) (output_path : string) :
  valid_inputs w bowl_path noodle_path topping_paths ->
  output_path ∉ protected w ->
  exists w' bowl_layer upper,
    Combine.create_dish resample bowl_path noodle_path topping_paths output_path w =
      (inr output_path, w') /\
    files w' !! output_path =
      Some (ImageFile PNG (foldl place canvas (bowl_layer :: upper))) /\
    length upper = S (Nat.min (length topping_paths) 3) /\
    im_size bowl_layer.1 = (819, 819) /\ within bowl_layer.2 819 102 921 /\
    within bowl_layer.2 819 0 1024 /\
    Forall (fun l : image * (Z * Z) =>
              exists S, im_size l.1 = (S, S) /\ within l.2 S 205 819) upper.
Proof.
  intros Hvalid Hout.
  destruct (valid_inputs_elim _ _ _ _ Hvalid) as (b & n & ts & Hb & Hn & Ht).
  exists (after w output_path
            ((Read <$> inputs bowl_path noodle_path topping_paths) ++
               [Write output_path;
                Print ("✅ Dish created successfully: " +:+ output_path)])
            (Some (composite resample b n ts))),
         (layer resample b 819, (102, 102)),
         ((layer resample n 614, (205, 205)) :: imap (topping_layer resample) ts).
  split; [apply (create_dish_ok resample w _ _ _ _ _ _ _ Hb Hn Ht Hout) |].
  split; [unfold after; cbn [files]; apply lookup_insert_eq |].
  split; [cbn [length]; rewrite length_imap, <- (Forall2_length _ _ _ Ht), length_take; lia |].
  split; [reflexivity |].
  split; [unfold within; cbn; lia |].
  split; [unfold within; cbn; lia |].
  constructor.
  - exists 614. split; [reflexivity | unfold within; cbn; lia].
  - apply (toppings_within resample ts 0).
Qed.

Lemma layers_nested_witness :
  exists w' bowl_layer upper,
    Combine.create_dish nearest "images/broth.png" "images/noodle.png"
      ["images/egg.png"; "images/basil.jpg"] "final_dish.png" pantry =
      (inr "final_dish.png", w') /\
    files w' !! "final_dish.png" =
      Some (ImageFile PNG (foldl place canvas (bowl_layer :: upper))) /\
    length upper = S (Nat.min (length ["images/egg.png"; "images/basil.jpg"]) 3) /\
    im_size bowl_layer.1 = (819, 819) /\ within bowl_layer.2 819 102 921 /\
    within bowl_layer.2 819 0 1024 /\
    Forall (fun l : image * (Z * Z) =>
              exists S, im_size l.1 = (S, S) /\ within l.2 S 205 819) upper.
Proof.
  assert (Hb : holds pantry "images/broth.png" broth) by (exists PNG; vm_compute; reflexivity).
  assert (Hn : holds pantry "images/noodle.png" ramen) by (exists PNG; vm_compute; reflexivity).
  assert (He : holds pantry "images/egg.png" egg) by (exists PNG; vm_compute; reflexivity).
  assert (Hj : holds pantry "images/basil.jpg" basil) by (exists JPEG; vm_compute; reflexivity).
  assert (Htops : Forall2 (holds pantry) (take 3 ["images/egg.png"; "images/basil.jpg"])
                    [egg; basil])
    by (repeat constructor; assumption).
  assert (Hout : "final_dish.png" ∉ protected pantry)
    by (unfold pantry; cbn [protected]; intros Hin;
        apply elem_of_singleton in Hin; discriminate Hin).
  exact (layers_nested nearest pantry "images/broth.png" "images/noodle.png"
           ["images/egg.png"; "images/basil.jpg"] "final_dish.png"
           (valid_inputs_intro _ _ _ _ _ _ _ Hb Hn Htops) Hout).
Defined.

(** X8: the dish keeps a transparent border. With valid inputs every pixel
    of the stored image outside the square from 102 to 921 is the canvas
    colour (255, 255, 255, 0), whatever the input images are. *)
Theorem border_stays_transparent (resample : resampler) (w : world)
    (bowl_path noodle_path : string) (topping_paths : list string) (output_path : string) :
  valid_inputs w bowl_path noodle_path topping_paths ->
  output_path ∉ protected w ->
  exists w' img,
    Combine.create_dish resample bowl_path noodle_path topping_paths output_path w =
      (inr output_path, w') /\
    files w' !! output_path = Some (ImageFile PNG img) /\
    forall x y, ~ (102 <= x < 921 /\ 102 <= y < 921) ->
                im_getpixel img x y = (255, 255, 255, 0).
Proof.
  intros Hvalid Hout.
  destruct (valid_inputs_elim _ _ _ _ Hvalid) as (b & n & ts & Hb & Hn & Ht).
  eexists _, _.
  split; [apply (create_dish_ok resample w _ _ _ _ _ _ _ Hb Hn Ht Hout) |].
  split; [unfold after; cbn [files]; apply lookup_insert_eq |].
  intros x y Hxy. unfold composite.
  rewrite foldl_place_outside; [reflexivity |].
  assert (Hno : forall (l : image * (Z * Z)) S lo hi,
             im_size l.1 = (S, S) -> within l.2 S lo hi -> 102 <= lo -> hi <= 921 ->
             Image.covers l.2 (im_size l.1) x y = false).
  { intros l S lo hi Hsz Hin Hlo Hhi.
    destruct (Image.covers l.2 (im_size l.1) x y) eqn:Hc; [| reflexivity].
    rewrite Hsz in Hc. pose proof (covers_within _ _ _ _ _ _ Hin Hc). lia. }
  unfold layers. constructor; [| constructor].
  - apply (Hno _ 819 102 921); [reflexivity | unfold within; cbn; lia | lia | lia].
  - apply (Hno _ 614 205 819); [reflexivity | unfold within; cbn; lia | lia | lia].
  - eapply Forall_impl; [apply (toppings_within resample ts 0) |].
    intros l (S & Hsz & Hin). apply (Hno l S 205 819); [assumption | assumption | lia | lia].
Qed.

Lemma border_stays_transparent_witness :
  exists w' img,
    Combine.create_dish nearest "images/broth.png" "images/noodle.png"
      ["images/egg.png"] "final_dish.png" pantry = (inr "final_dish.png", w') /\
    files w' !! "final_dish.png" = Some (ImageFile PNG img) /\
    forall x y, ~ (102 <= x < 921 /\ 102 <= y < 921) ->
                im_getpixel img x y = (255, 255, 255, 0).
Proof.
  assert (Hb : holds pantry "images/broth.png" broth) by (exists PNG; vm_compute; reflexivity).
  assert (Hn : holds pantry "images/noodle.png" ramen) by (exists PNG; vm_compute; reflexivity).
  assert (He : holds pantry "images/egg.png" egg) by (exists PNG; vm_compute; reflexivity).
  assert (Htops : Forall2 (holds pantry) (take 3 ["images/egg.png"]) [egg])
    by (repeat constructor; assumption).
  assert (Hout : "final_dish.png" ∉ protected pantry)
    by (unfold pantry; cbn [protected]; intros Hin;
        apply elem_of_singleton in Hin; discriminate Hin).
  exact (border_stays_transparent nearest pantry "images/broth.png" "images/noodle.png"
           ["images/egg.png"] "final_dish.png"
           (valid_inputs_intro _ _ _ _ _ _ _ Hb Hn Htops) Hout).
Defined.

(** ** Bands stay bytes *)

Lemma mix_valid (a old new : Z) :
  valid_band a -> valid_band old -> valid_band new -> valid_band (mix a old new).
Proof.
  unfold valid_band, mix. intros Ha Ho Hn.
  assert (H1 : 0 <= old * (255 - a) <= 255 * (255 - a))
    by (split; [apply Z.mul_nonneg_nonneg | apply Z.mul_le_mono_nonneg_r]; lia).
  assert (H2 : 0 <= new * a <= 255 * a)
    by (split; [apply Z.mul_nonneg_nonneg | apply Z.mul_le_mono_nonneg_r]; lia).
  split.
  - apply Z.div_pos; lia.
  - apply Z.lt_succ_r. apply Z.div_lt_upper_bound; lia.
Qed.

Lemma convert_rgba_valid (raw : image) :
  valid_image raw -> valid_image (Image.convert raw RGBA).
Proof.
  intros Hraw x y. specialize (Hraw x y). destruct Hraw as (Hr & Hg & Hb & Ha).
  unfold Image.convert, valid_pixel, valid_band in *. cbn [im_getpixel].
  destruct (im_mode raw); cbn; repeat split; lia.
Qed.

Lemma place_valid (c : image) (l : image * (Z * Z)) :
  im_mode c = RGBA -> im_mode l.1 = RGBA ->
  valid_image c -> valid_image l.1 -> valid_image (place c l).
Proof.
  intros Hc Hl Hvc Hvl x y.
  destruct (Image.covers l.2 (im_size l.1) x y) eqn:Hcov.
  - unfold place.
    rewrite (pasted_pixel c l.1 l.2 x y Hc Hl Hcov (Hvl _ _) (Hvc _ _)).
    destruct (Hvl (x - l.2.1) (y - l.2.2)) as (Hr & Hg & Hb & Ha).
    destruct (Hvc x y) as (Hr' & Hg' & Hb' & Ha').
    repeat split; apply mix_valid; assumption.
  - rewrite place_outside by exact Hcov. apply Hvc.
Qed.

Lemma foldl_place_valid (ls : list (image * (Z * Z))) (c : image) :
  im_mode c = RGBA -> valid_image c ->
  Forall (fun l : image * (Z * Z) => im_mode l.1 = RGBA /\ valid_image l.1) ls ->
  valid_image (foldl place c ls).
Proof.
  revert c. induction ls as [| l ls IH]; intros c Hc Hvc Hls; cbn [foldl]; [exact Hvc |].
  apply Forall_cons in Hls as [[Hl Hvl] Hls].
  apply IH; [exact Hc | apply place_valid; assumption | exact Hls].
Qed.

(** X9: bands stay bytes. If the resampling kernel turns rasters whose
    bands are all in 0..255 into such rasters, and the input files hold
    such rasters, then every band of every pixel of the stored image is in
    0..255: converting to RGBA and blending never leave the range. *)
Theorem output_bands_are_bytes (resample : resampler) (w : world)
    (bowl_path noodle_path : string) (topping_paths : list string) (output_path : string)
    (bowl noodles : image) (toppings : list image) :
  (forall f im sz x y, valid_image im -> valid_pixel (resample f im sz x y)) ->
  holds w bowl_path bowl -> holds w noodle_path noodles ->
  Forall2 (holds w) (take 3 topping_paths) toppings ->
  valid_image bowl -> valid_image noodles -> Forall valid_image toppings ->
  output_path ∉ protected w ->
  exists w' img,
    Combine.create_dish resample bowl_path noodle_path topping_paths output_path w =
      (inr output_path, w') /\
    files w' !! output_path = Some (ImageFile PNG img) /\
    forall x y, valid_pixel (im_getpixel img x y).
Proof.
  intros Hrs Hb Hn Ht Hvb Hvn Hvt Hout.
  eexists _, _.
  split; [apply (create_dish_ok resample w _ _ _ _ _ _ _ Hb Hn Ht Hout) |].
  split; [unfold after; cbn [files]; apply lookup_insert_eq |].
  assert (Hlayer : forall raw S, valid_image raw ->
                     im_mode (layer resample raw S) = RGBA /\
                     valid_image (layer resample raw S)).
  { intros raw S Hraw. split; [reflexivity |].
    intros x y. unfold layer. cbn [im_getpixel].
    apply Hrs, convert_rgba_valid, Hraw. }
  apply foldl_place_valid.
  - reflexivity.
  - intros x y. unfold canvas, Image.new, valid_pixel, valid_band. cbn. lia.
  - unfold layers. constructor; [apply Hlayer, Hvb |].
    constructor; [apply Hlayer, Hvn |].
    clear Ht.
    assert (H : forall k,
               Forall (fun l : image * (Z * Z) => im_mode l.1 = RGBA /\ valid_image l.1)
                 (imap (fun j => topping_layer resample (k + j)) toppings)).
    { induction Hvt as [| t ts Hv _ IH]; intros k; cbn [imap]; constructor.
      - apply Hlayer, Hv.
      - rewrite (imap_ext _ (fun j => topping_layer resample (S k + j))); [apply IH |].
        intros j x _. cbn. f_equal. lia. }
    exact (H 0%nat).
Qed.

Lemma nearest_valid f im sz x y :
  valid_image im -> valid_pixel (nearest f im sz x y).
Proof. intros Him. unfold nearest. apply Him. Qed.

Lemma output_bands_are_bytes_witness :
  exists w' img,
    Combine.create_dish nearest "images/broth.png" "images/noodle.png"
      ["images/egg.png"; "images/basil.jpg"] "final_dish.png" pantry =
      (inr "final_dish.png", w') /\
    files w' !! "final_dish.png" = Some (ImageFile PNG img) /\
    forall x y, valid_pixel (im_getpixel img x y).
Proof.
  assert (Hb : holds pantry "images/broth.png" broth) by (exists PNG; vm_compute; reflexivity).
  assert (Hn : holds pantry "images/noodle.png" ramen) by (exists PNG; vm_compute; reflexivity).
  assert (He : holds pantry "images/egg.png" egg) by (exists PNG; vm_compute; reflexivity).
  assert (Hj : holds pantry "images/basil.jpg" basil) by (exists JPEG; vm_compute; reflexivity).
  assert (Htops : Forall2 (holds pantry) (take 3 ["images/egg.png"; "images/basil.jpg"])
                    [egg; basil])
    by (repeat constructor; assumption).
  assert (Hout : "final_dish.png" ∉ protected pantry)
    by (unfold pantry; cbn [protected]; intros Hin;
        apply elem_of_singleton in Hin; discriminate Hin).
  assert (Hconst : forall m sz r g b a,
             0 <= r <= 255 -> 0 <= g <= 255 -> 0 <= b <= 255 -> 0 <= a <= 255 ->
             valid_image (Image.new m sz (r, g, b, a)))
    by (intros m sz r g b a Hr Hg Hb' Ha x y; repeat split; cbn; lia).
  assert (Hvb : valid_image broth) by (apply Hconst; lia).
  assert (Hvn : valid_image ramen) by (apply Hconst; lia).
  assert (Hve : valid_image egg) by (apply Hconst; lia).
  assert (Hvj : valid_image basil) by (apply Hconst; lia).
  exact (output_bands_are_bytes nearest pantry "images/broth.png" "images/noodle.png"
           ["images/egg.png"; "images/basil.jpg"] "final_dish.png" broth ramen [egg; basil]
           nearest_valid Hb Hn Htops Hvb Hvn
           (List.Forall_cons _ _ _ Hve (List.Forall_cons _ _ _ Hvj (List.Forall_nil _))) Hout).
Defined.

(** ** [resize_and_center] on any scale *)

Lemma resize_and_center_inv (resample : resampler) img scale w r :
  Combine.resize_and_center resample img scale w = r ->
  match Py.int (Py.float_of_int 1024 * scale)%float with
  | inl e => r = (inl e, w)
  | inr side =>
      if 0 <? side
      then r = (inr ({| im_mode := im_mode img; im_size := (side, side);
                        im_getpixel := resample LANCZOS img (side, side) |},
                     centered side), w)
      else r = (inl (ValueError "height and width must be > 0"), w)
  end.
Proof.
  intros <-. unfold Combine.resize_and_center.
  change (Combine.canvas_size.1) with 1024.
  destruct (Py.int (Py.float_of_int 1024 * scale)%float) as [e | side] eqn:Hint;
    [reflexivity |].
  destruct (Z.ltb_spec 0 side) as [HS | HS].
  - rewrite <- Hint. unfold Combine.resize_and_center.
    rewrite Hint. unfold bind at 1, lift at 1. unfold bind, lift, Image.resize.
    cbn [fst snd]. destruct (Z.leb_spec side 0) as [Hle | _]; [lia | reflexivity].
  - unfold bind at 1, lift at 1. unfold bind, lift, Image.resize. cbn [fst snd].
    destruct (Z.leb_spec side 0) as [_ | Hgt]; [reflexivity | lia].
Qed.

(** X10: whenever [resize_and_center] returns, for any scale, the image it
    returns is a square whose side is the positive integer
    [int(1024 * scale)], in the mode of the image given, and the corner it
    returns centres that square on the canvas up to one pixel: both
    coordinates are equal and the margin after the square exceeds the
    margin before it by 0 or 1. No I/O is performed. *)
Theorem resize_and_center_centred (resample : resampler) (img : image) (scale : float)
    (w : world) (r : image) (x y : Z) (w' : world) :
  Combine.resize_and_center resample img scale w = (inr (r, (x, y)), w') ->
  exists side,
    Py.int (Py.float_of_int Combine.canvas_size.1 * scale)%float = inr side /\
    0 < side /\
    im_size r = (side, side) /\
    im_mode r = im_mode img /\
    x = y /\
    0 <= (1024 - side - x) - x <= 1 /\
    w' = w.
Proof.
  intros Hrun. apply resize_and_center_inv in Hrun.
  change (Combine.canvas_size.1) with 1024.
  destruct (Py.int (Py.float_of_int 1024 * scale)%float) as [e | side];
    [discriminate Hrun |].
  destruct (Z.ltb_spec 0 side) as [HS | HS]; [| discriminate Hrun].
  injection Hrun as -> -> -> ->.
  exists side. repeat split; try reflexivity; try assumption.
  - pose proof (Z.div_mod (1024 - side) 2 ltac:(lia)).
    pose proof (Z.mod_pos_bound (1024 - side) 2 ltac:(lia)). lia.
  - pose proof (Z.div_mod (1024 - side) 2 ltac:(lia)).
    pose proof (Z.mod_pos_bound (1024 - side) 2 ltac:(lia)). lia.
Qed.

Lemma resize_and_center_centred_witness :
  exists side,
    Py.int (Py.float_of_int Combine.canvas_size.1 * 1.5)%float = inr side /\
    0 < side /\
    im_size (layer nearest egg 1536) = (side, side) /\
    im_mode (layer nearest egg 1536) = im_mode (Image.convert egg RGBA) /\
    -256 = -256 /\
    0 <= (1024 - side - -256) - -256 <= 1 /\
    pantry = pantry.
Proof.
  apply (resize_and_center_centred nearest (Image.convert egg RGBA) 1.5%float pantry
           (layer nearest egg 1536) (-256) (-256) pantry).
  apply (resize_and_center_eq nearest (Image.convert egg RGBA) 1.5%float 1536 pantry).
  - vm_compute. reflexivity.
  - lia.
Defined.

(** X11: [resize_and_center] refuses a scale that gives no pixels. For any
    image, if [int(1024 * scale)] raises (the product is NaN or infinite)
    that exception propagates, and if it is zero or negative (within the
    range of a C int) [resize] raises ValueError; in both cases no I/O has
    been performed. *)
Theorem resize_and_center_refuses (resample : resampler) (img : image) (scale : float)
    (w : world) :
  (forall e,
      Py.int (Py.float_of_int Combine.canvas_size.1 * scale)%float = inl e ->
      Combine.resize_and_center resample img scale w = (inl e, w)) /\
  (forall side,
      Py.int (Py.float_of_int Combine.canvas_size.1 * scale)%float = inr side ->
      -2147483648 <= side <= 0 ->
      Combine.resize_and_center resample img scale w =
        (inl (ValueError "height and width must be > 0"), w)).
Proof.
  pose proof (resize_and_center_inv resample img scale w _ eq_refl) as H.
  change (Combine.canvas_size.1) with 1024.
  split.
  - intros e He. rewrite He in H. exact H.
  - intros side Hside Hrange. rewrite Hside in H.
    destruct (Z.ltb_spec 0 side) as [HS | _]; [lia | exact H].
Qed.

Lemma resize_and_center_refuses_witness :
  Combine.resize_and_center nearest egg 0.0005%float pantry =
    (inl (ValueError "height and width must be > 0"), pantry) /\
  Combine.resize_and_center nearest egg nan pantry =
    (inl (ValueError "cannot convert float NaN to integer"), pantry).
Proof.
  split.
  - apply (proj2 (resize_and_center_refuses nearest egg 0.0005%float pantry) 0).
    + vm_compute. reflexivity.
    + lia.
  - apply (proj1 (resize_and_center_refuses nearest egg nan pantry)).
    vm_compute. reflexivity.
Defined.

(** ** [main] *)

Section Main.
Variable resample : resampler.
Variable str : exn -> string.

Lemma create_dish_take bowl_path noodle_path topping_paths output_path w :
  Combine.create_dish resample bowl_path noodle_path (take 3 topping_paths) output_path w =
  Combine.create_dish resample bowl_path noodle_path topping_paths output_path w.
Proof. unfold Combine.create_dish. rewrite take_take. reflexivity. Qed.

Lemma create_dish_fst_log bowl_path noodle_path topping_paths output_path ev w :
  (Combine.create_dish resample bowl_path noodle_path topping_paths output_path (log ev w)).1 =
  (Combine.create_dish resample bowl_path noodle_path topping_paths output_path w).1.
Proof. rewrite !create_dish_outcome. reflexivity. Qed.

Lemma create_dish_inl bowl_path noodle_path topping_paths output_path w e w' :
  Combine.create_dish resample bowl_path noodle_path topping_paths output_path w =
    (inl e, w') ->
  files w' = files w /\ protected w' = protected w.
Proof.
  rewrite create_dish_outcome. cbv zeta.
  destruct (dish_outcome_cases resample (load w)
              (bool_decide (output_path ∈ protected w))
              bowl_path noodle_path topping_paths output_path)
    as [(q & e' & evs & _ & _ & -> & _) | (b & n & ts & _ & _ & _ & ->)].
  - cbn [fst snd]. intros [= <- <-]. split; reflexivity.
  - destruct (bool_decide (output_path ∈ protected w)); cbn [fst snd]; [| discriminate].
    intros [= <- <-]. split; reflexivity.
Qed.

(** [main] as one call of [create_dish] on the first three toppings. *)
Lemma main_eq (args : CreateDish.Namespace) (w : world) :
  CreateDish.main resample str args w =
    let w0 := if (3 <? length (CreateDish.toppings args))%nat
              then log (Print warning_line) w else w in
    match Combine.create_dish resample (CreateDish.bowl args) (CreateDish.noodles args)
            (take 3 (CreateDish.toppings args)) (CreateDish.output args) w0 with
    | (inr _, w1) => (inr tt, w1)
    | (inl e, w1) => (inl (CreateDish.SystemExit 1), log (Print (error_line str e)) w1)
    end.
Proof.
  unfold CreateDish.main.
  change CreateDish.create_dish with Combine.create_dish.
  destruct (Nat.ltb_spec 3 (length (CreateDish.toppings args))) as [Hlen | Hlen];
    cbv beta iota zeta.
  - cbn [CreateDish.bowl CreateDish.noodles CreateDish.toppings CreateDish.output].
    change ((print warning_line w).2) with (log (Print warning_line) w).
    destruct (Combine.create_dish resample _ _ _ _ _) as [[e | r] w1]; [| reflexivity].
    destruct e; reflexivity.
  - rewrite (take_ge (CreateDish.toppings args) 3) by lia.
    destruct (Combine.create_dish resample _ _ _ _ _) as [[e | r] w1]; [| reflexivity].
    destruct e; reflexivity.
Qed.

End Main.

(** X12: given more than three toppings, [main] prints the warning and
    then does exactly what it does when given the first three only: the
    later toppings are dropped before the call, whether or not they exist. *)
Theorem main_truncates (resample : resampler) (str : exn -> string)
    (args : CreateDish.Namespace) (w : world) :
  (3 < length (CreateDish.toppings args))%nat ->
  CreateDish.main resample str args w =
    CreateDish.main resample str
      {| CreateDish.bowl := CreateDish.bowl args;
         CreateDish.noodles := CreateDish.noodles args;
         CreateDish.toppings := take 3 (CreateDish.toppings args);
         CreateDish.output := CreateDish.output args |}
      (print "⚠️  Warning: Maximum 3 toppings supported. Using first 3 only." w).2.
Proof.
  intros Hlen. rewrite !main_eq.
  cbn [CreateDish.bowl CreateDish.noodles CreateDish.toppings CreateDish.output].
  rewrite take_take. change (Nat.min 3 3) with 3%nat.
  rewrite length_take.
  destruct (Nat.ltb_spec 3 (length (CreateDish.toppings args))) as [_ | Hle]; [| lia].
  destruct (Nat.ltb_spec 3 (Nat.min 3 (length (CreateDish.toppings args)))) as [Hlt | _];
    [lia |].
  reflexivity.
Qed.

Lemma main_truncates_witness :
  CreateDish.main nearest sample_str greedy_args pantry =
    CreateDish.main nearest sample_str
      {| CreateDish.bowl := "images/broth.png";
         CreateDish.noodles := "images/noodle.png";
         CreateDish.toppings := ["images/egg.png"; "images/basil.jpg"; "images/egg.png"];
         CreateDish.output := "final_dish.png" |}
      (print "⚠️  Warning: Maximum 3 toppings supported. Using first 3 only." pantry).2.
Proof.
  apply (main_truncates nearest sample_str greedy_args pantry).
  cbn. lia.
Defined.

(** X13: exit status 0 means the dish was written. If [main] returns
    normally, the bowl, the noodles and the first three toppings were
    decodable images and the output path was not protected; the output path
    now holds a 1024x1024 RGBA PNG and no other file has changed. *)
Theorem main_returns_written (resample : resampler) (str : exn -> string)
    (args : CreateDish.Namespace) (w w' : world) :
  CreateDish.main resample str args w = (inr tt, w') ->
  valid_inputs w (CreateDish.bowl args) (CreateDish.noodles args)
    (CreateDish.toppings args) /\
  (CreateDish.output args ∉ protected w) /\
  exists img,
    files w' = <[CreateDish.output args := ImageFile PNG img]> (files w) /\
    im_size img = (1024, 1024) /\ im_mode img = RGBA.
Proof.
  rewrite main_eq. cbv zeta.
  set (w0 := if (3 <? length (CreateDish.toppings args))%nat
             then log (Print warning_line) w else w).
  assert (Hfiles : files w0 = files w) by (subst w0; destruct (_ <? _)%nat; reflexivity).
  assert (Hprot : protected w0 = protected w)
    by (subst w0; destruct (_ <? _)%nat; reflexivity).
  assert (Hholds : forall p img, holds w0 p img <-> holds w p img)
    by (intros p img; unfold holds; rewrite Hfiles; reflexivity).
  intros Hmain.
  destruct (Combine.create_dish resample _ _ _ _ w0) as [[e | r] w1] eqn:Hrun;
    [discriminate Hmain |].
  injection Hmain as <-.
  destruct (create_dish_inr resample _ _ _ _ _ _ _ Hrun)
    as (b & n & ts & Hb & Hn & Ht & Hout & _ & ->).
  rewrite take_take in Ht. change (Nat.min 3 3) with 3%nat in Ht.
  split; [| split; [rewrite <- Hprot; exact Hout |]].
  - apply (valid_inputs_intro w _ _ _ b n ts); [apply Hholds, Hb | apply Hholds, Hn |].
    eapply Forall2_impl; [exact Ht |]. intros p img. apply Hholds.
  - exists (composite resample b n ts). unfold after. cbn [files]. rewrite Hfiles.
    split; [reflexivity |]. unfold composite. apply foldl_place_keeps_canvas.
Qed.

Lemma main_returns_written_witness :
  exists w' img,
    CreateDish.main nearest sample_str
      {| CreateDish.bowl := "images/broth.png";
         CreateDish.noodles := "images/noodle.png";
         CreateDish.toppings := ["images/egg.png"];
         CreateDish.output := "final_dish.png" |} pantry = (inr tt, w') /\
    files w' = <["final_dish.png" := ImageFile PNG img]> (files pantry) /\
    im_size img = (1024, 1024) /\ im_mode img = RGBA.
Proof.
  assert (Hb : holds pantry "images/broth.png" broth) by (exists PNG; vm_compute; reflexivity).
  assert (Hn : holds pantry "images/noodle.png" ramen) by (exists PNG; vm_compute; reflexivity).
  assert (He : holds pantry "images/egg.png" egg) by (exists PNG; vm_compute; reflexivity).
  assert (Htops : Forall2 (holds pantry) (take 3 (take 3 ["images/egg.png"])) [egg])
    by (repeat constructor; assumption).
  assert (Hout : "final_dish.png" ∉ protected pantry)
    by (unfold pantry; cbn [protected]; intros Hin;
        apply elem_of_singleton in Hin; discriminate Hin).
  set (args := {| CreateDish.bowl := "images/broth.png";
                  CreateDish.noodles := "images/noodle.png";
                  CreateDish.toppings := ["images/egg.png"];
                  CreateDish.output := "final_dish.png" |}).
  assert (Hmain : exists w', CreateDish.main nearest sample_str args pantry = (inr tt, w')).
  { rewrite main_eq. cbv zeta.
    change (if (3 <? length (CreateDish.toppings args))%nat
            then log (Print warning_line) pantry else pantry) with pantry.
    subst args.
    cbn [CreateDish.bowl CreateDish.noodles CreateDish.toppings CreateDish.output].
    rewrite (create_dish_ok nearest pantry "images/broth.png" "images/noodle.png"
               (take 3 ["images/egg.png"]) "final_dish.png" broth ramen [egg]
               Hb Hn Htops Hout).
    eexists. reflexivity. }
  destruct Hmain as [w' Hmain].
  destruct (main_returns_written nearest sample_str args pantry w' Hmain)
    as (_ & _ & img & Hf & Hsz & Hmode).
  exists w', img. auto.
Defined.

(** X14: the status of [sys.exit] and the line before it. If [main] raises
    SystemExit, the status is 1, [create_dish] raised an exception on these
    arguments, and the last line printed is the error line for that
    exception: the "Could not find file" line when it is a
    FileNotFoundError, the general line otherwise. *)
Theorem main_exit_status (resample : resampler) (str : exn -> string)
    (args : CreateDish.Namespace) (w : world) (code : Z) (w' : world) :
  CreateDish.main resample str args w = (inl (CreateDish.SystemExit code), w') ->
  code = 1 /\
  exists e,
    (CreateDish.create_dish resample (CreateDish.bowl args) (CreateDish.noodles args)
       (CreateDish.toppings args) (CreateDish.output args) w).1 = inl e /\
    last (trace w') =
      Some (Print (match e with
                   | FileNotFoundError _ => "❌ Error: Could not find file - " +:+ str e
                   | _ => "❌ Error: " +:+ str e
                   end)).
Proof.
  rewrite main_eq. cbv zeta.
  set (w0 := if (3 <? length (CreateDish.toppings args))%nat
             then log (Print warning_line) w else w).
  assert (Hfst : (Combine.create_dish resample (CreateDish.bowl args)
                    (CreateDish.noodles args) (take 3 (CreateDish.toppings args))
                    (CreateDish.output args) w0).1 =
                 (Combine.create_dish resample (CreateDish.bowl args)
                    (CreateDish.noodles args) (CreateDish.toppings args)
                    (CreateDish.output args) w).1).
  { rewrite create_dish_take. subst w0. destruct (_ <? _)%nat; [| reflexivity].
    apply create_dish_fst_log. }
  destruct (Combine.create_dish resample _ _ (take 3 _) _ w0) as [[e | r] w1] eqn:Hrun;
    [| discriminate].
  intros [= <- <-]. split; [reflexivity |].
  exists e. split.
  - change CreateDish.create_dish with Combine.create_dish.
    rewrite <- Hfst. reflexivity.
  - cbn [trace log]. rewrite last_snoc. reflexivity.
Qed.

Lemma main_exit_status_witness :
  exists w' message,
    CreateDish.main nearest sample_str hungry_args pantry =
      (inl (CreateDish.SystemExit 1), w') /\
    last (trace w') = Some (Print ("❌ Error: Could not find file - " +:+ message)).
Proof.
  assert (Hmain : CreateDish.main nearest sample_str hungry_args pantry =
                  (inl (CreateDish.SystemExit 1),
                   log (Print (error_line sample_str (FileNotFoundError "images/missing.png")))
                     (after pantry "final_dish.png" [Read "images/missing.png"] None))).
  { rewrite main_eq. cbv zeta. rewrite create_dish_outcome. vm_compute. reflexivity. }
  destruct (main_exit_status nearest sample_str hungry_args pantry _ _ Hmain)
    as (_ & e & He & Hlast).
  eexists _, (sample_str (FileNotFoundError "images/missing.png")).
  split; [exact Hmain |]. reflexivity.
Defined.

(** ** The last topping is on top *)

Lemma place_opaque (c : image) (l : image * (Z * Z)) (x y : Z) :
  im_mode c = RGBA -> im_mode l.1 = RGBA ->
  Image.covers l.2 (im_size l.1) x y = true ->
  valid_pixel (im_getpixel l.1 (x - l.2.1) (y - l.2.2)) ->
  band_a (im_getpixel l.1 (x - l.2.1) (y - l.2.2)) = 255 ->
  im_getpixel (place c l) x y = im_getpixel l.1 (x - l.2.1) (y - l.2.2).
Proof.
  intros Hc Hl Hcov (Hr & Hg & Hb & Ha) Hop.
  unfold place, pasted. cbn [im_getpixel]. rewrite Hcov.
  unfold Image.convert. cbn [im_getpixel]. rewrite Hc, Hl. cbn [Image.convert_pixel].
  rewrite Hop. unfold Image.blend_pixel.
  rewrite !BLEND_opaque by assumption.
  destruct (im_getpixel l.1 (x - l.2.1) (y - l.2.2)) as [[[r g] b] a]. reflexivity.
Qed.

(** X15: the last topping is on top. With valid inputs, wherever the
    resized raster of the last topping that is composited has a fully
    opaque pixel, the stored image shows exactly that pixel, whatever the
    bowl, the noodles and the earlier toppings have there. *)
Theorem last_topping_on_top (resample : resampler) (w : world)
    (bowl_path noodle_path : string) (topping_paths : list string) (output_path : string)
    (bowl noodles : image) (earlier : list image) (last_topping : image) (x y : Z) :
  holds w bowl_path bowl -> holds w noodle_path noodles ->
  Forall2 (holds w) (take 3 topping_paths) (earlier ++ [last_topping]) ->
  output_path ∉ protected w ->
  let pos := topping_pos (length earlier) in
  let p := resample LANCZOS (Image.convert last_topping RGBA) (409, 409)
             (x - pos.1) (y - pos.2) in
  Image.covers pos (409, 409) x y = true ->
  valid_pixel p -> band_a p = 255 ->
  exists w' img,
    Combine.create_dish resample bowl_path noodle_path topping_paths output_path w =
      (inr output_path, w') /\
    files w' !! output_path = Some (ImageFile PNG img) /\
    im_getpixel img x y = p.
Proof.
  intros Hb Hn Ht Hout pos p Hcov Hp Hop.
  eexists _, _.
  split; [apply (create_dish_ok resample w _ _ _ _ _ _ _ Hb Hn Ht Hout) |].
  split; [unfold after; cbn [files]; apply lookup_insert_eq |].
  unfold composite, layers. rewrite imap_app.
  rewrite !app_comm_cons, foldl_app. cbn [imap foldl]. rewrite Nat.add_0_r.
  apply (place_opaque _ (topping_layer resample (length earlier) last_topping) x y).
  - apply foldl_place_keeps_canvas.
  - reflexivity.
  - exact Hcov.
  - exact Hp.
  - exact Hop.
Qed.

Lemma last_topping_on_top_witness :
  exists w' img,
    Combine.create_dish nearest "images/broth.png" "images/noodle.png"
      ["images/basil.jpg"; "images/egg.png"] "final_dish.png" pantry =
      (inr "final_dish.png", w') /\
    files w' !! "final_dish.png" = Some (ImageFile PNG img) /\
    im_getpixel img 300 400 = (250, 250, 240, 255).
Proof.
  assert (Hb : holds pantry "images/broth.png" broth) by (exists PNG; vm_compute; reflexivity).
  assert (Hn : holds pantry "images/noodle.png" ramen) by (exists PNG; vm_compute; reflexivity).
  assert (He : holds pantry "images/egg.png" egg) by (exists PNG; vm_compute; reflexivity).
  assert (Hj : holds pantry "images/basil.jpg" basil) by (exists JPEG; vm_compute; reflexivity).
  assert (Htops : Forall2 (holds pantry) (take 3 ["images/basil.jpg"; "images/egg.png"])
                    ([basil] ++ [egg]))
    by (repeat constructor; assumption).
  assert (Hout : "final_dish.png" ∉ protected pantry)
    by (unfold pantry; cbn [protected]; intros Hin;
        apply elem_of_singleton in Hin; discriminate Hin).
  apply (last_topping_on_top nearest pantry "images/broth.png" "images/noodle.png"
           ["images/basil.jpg"; "images/egg.png"] "final_dish.png" broth ramen
           [basil] egg 300 400 Hb Hn Htops Hout).
  - vm_compute. reflexivity.
  - repeat split; vm_compute; discriminate.
  - vm_compute. reflexivity.
Defined.
